(** * healthTools: GPX conversion (utils/gpx.py)

    A shallow embedding of [enrich_data], [convert_gpx_to_rkjson] and
    [convert_gpx_to_geojson], and the properties of the conversion that the
    specification states about them.

    Modelling choices, all taken from the Python source:
    - a Python [dict] with string keys is a [gmap string value]; iteration
      order of a Python 2 dict is arbitrary, and every loop over a dict in
      the source is insensitive to it (keys are distinct);
    - dicts that are shared with the caller ([additional_data]) or mutated
      in place ([jdata]) live in a heap of dict objects addressed by
      references, and the functions that mutate them are written in a state
      and exception monad over that heap;
    - an exception is a value of [exn]; the heap survives a raise, as the
      mutations made before a Python exception do;
    - the parsed XML document ([etree.fromstring(data)]) is the input: an
      [element] tree with Clark-notation tags, as lxml presents it;
    - [float], [dateutil.parser.parse] and
      [astimezone(tz.tzlocal()).strftime(...)] are library calls: they are
      variables of the model, with the result types the calls have;
    - a [timedelta] is its number of microseconds, and
      [td.total_seconds()] the float Python computes for it: the double
      nearest to the microseconds divided by [10**6]. *)

From Stdlib Require Import ZArith String List.
From Stdlib Require Import Floats.SpecFloat.
From stdpp Require Import gmap strings list fin_maps sorting.

Set Warnings "-register-all".
Local Open Scope Z_scope.

(** ** Constants of the module *)

Definition KEY_TYPE : string := "type".
Definition KEY_EQUIPMENT : string := "equipment".
Definition KEY_NOTES : string := "notes".
Definition KEY_PATH : string := "path".
Definition KEY_STARTTIME : string := "start_time".
Definition KEY_LAT : string := "latitude".
Definition KEY_LON : string := "longitude".
Definition KEY_TIMESTAMP : string := "timestamp".
Definition KEY_ALT : string := "altitude".
Definition KEY_FB : string := "post_to_facebook".
Definition KEY_TWIT : string := "post_to_twitter".
Definition KEY_FEATURES : string := "features".
Definition KEY_NAME : string := "name".
Definition KEY_PROP : string := "properties".
Definition KEY_TIME : string := "time".
Definition KEY_GEO : string := "geometry".
Definition KEY_COORDS : string := "coordinates".

(** [NAMESPACE['ns']]. *)
Definition NAMESPACE_ns : string := "http://www.topografix.com/GPX/1/1".

Definition TYPE_RK : string := "runkeeper".
Definition TYPE_GEOJSON : string := "geojson".
Definition OUTPUT_TYPES : list string := [TYPE_RK; TYPE_GEOJSON].

(** ** Python values *)

(** The values the conversions store in their dicts: JSON-serialisable
    Python objects.  A float is an IEEE 754 value. *)
Inductive value : Type :=
  | VNone
  | VBool (b : bool)
  | VInt (n : Z)
  | VFloat (x : spec_float)
  | VStr (s : string)
  | VList (l : list value)
  | VDict (d : gmap string value).

Abbreviation dict := (gmap string value).

(** [element.text] is a string or [None]. *)
Definition text_value (t : option string) : value :=
  match t with
  | Some s => VStr s
  | None => VNone
  end.

Definition DEFAULT_DATA : gmap string dict :=
  {[ TYPE_RK :=
       {[ KEY_TYPE := VStr "Running";
          KEY_EQUIPMENT := VStr "None";
          KEY_NOTES := VStr "";
          KEY_FB := VBool false;
          KEY_TWIT := VBool false ]} ]}.

(** [DEFAULT_DATA[TYPE_RK]]. *)
Definition DEFAULTS_RK : dict :=
  {[ KEY_TYPE := VStr "Running";
     KEY_EQUIPMENT := VStr "None";
     KEY_NOTES := VStr "";
     KEY_FB := VBool false;
     KEY_TWIT := VBool false ]}.

(** [d[key] = wrap(y)] for the last [y] of a list, as a loop of
    assignments to one key leaves it. *)
Definition set_last {Y : Type} (key : string) (wrap : Y -> value) (ys : list Y)
    (d : dict) : dict :=
  match last ys with
  | Some y => <[key := wrap y]> d
  | None => d
  end.

(** ** Exceptions and results *)

(** The built-in exception classes the conversion code can raise.  The
    module defines no exception class of its own. *)
Inductive exn : Type :=
  | AttributeError
  | IndexError
  | KeyError
  | TypeError
  | ValueError.

Definition exn_name (e : exn) : string :=
  match e with
  | AttributeError => "AttributeError"
  | IndexError => "IndexError"
  | KeyError => "KeyError"
  | TypeError => "TypeError"
  | ValueError => "ValueError"
  end.

Inductive result (A : Type) : Type :=
  | Ok (a : A)
  | Raise (e : exn).
Arguments Ok {A} a.
Arguments Raise {A} e.

#[global] Instance result_ret : MRet result := fun A a => Ok a.
#[global] Instance result_bind : MBind result := fun A B f r =>
  match r with
  | Ok a => f a
  | Raise e => Raise e
  end.

(** [for x in xs: s = body(x, s)], stopping at the first exception. *)
Fixpoint for_fold {X S : Type} (body : X -> S -> result S) (xs : list X) (s : S)
  : result S :=
  match xs with
  | [] => Ok s
  | x :: xs' => s' ← body x s; for_fold body xs' s'
  end.

(** A list built by appending one computed item per element. *)
Fixpoint for_collect {X Y : Type} (body : X -> result Y) (xs : list X)
  : result (list Y) :=
  match xs with
  | [] => Ok []
  | x :: xs' => y ← body x; ys ← for_collect body xs'; Ok (y :: ys)
  end.

(** [l[0]]. *)
Definition index0 {A : Type} (l : list A) : result A :=
  match l with
  | x :: _ => Ok x
  | [] => Raise IndexError
  end.

(** ** The XML tree (lxml) *)

(** An element: its tag in Clark notation ([{namespace}local]), its
    attributes, its text and its child elements in document order.
    Comments and processing instructions never match a tag and are left
    out. *)
Inductive element : Type :=
  | Element (tag : string) (attrib : gmap string string)
            (text : option string) (children : list element).

Definition tag (e : element) : string :=
  match e with Element t _ _ _ => t end.
Definition attrib (e : element) : gmap string string :=
  match e with Element _ a _ _ => a end.
Definition text (e : element) : option string :=
  match e with Element _ _ t _ => t end.
Definition children (e : element) : list element :=
  match e with Element _ _ _ c => c end.

(** [element.get(name)]: the attribute or [None]. *)
Definition get (e : element) (name : string) : option string :=
  attrib e !! name.

(** ['{' + namespace + '}' + name]. *)
Definition clark (namespace name : string) : string :=
  "{" +:+ namespace +:+ "}" +:+ name.

(** The qualified name [ns:name] of the XPath queries, under the prefix
    mapping [NAMESPACE]. *)
Definition ns (name : string) : string := clark NAMESPACE_ns name.

(** The element and all its descendants, in document order. *)
Fixpoint iter_all (e : element) : list element :=
  match e with
  | Element _ _ _ cs => e :: flat_map iter_all cs
  end.

(** [element.iter(tag)]: the element itself and its descendants that carry
    the tag, in document order. *)
Definition iter (e : element) (t : string) : list element :=
  filter (fun x => tag x = t) (iter_all e).

(** [tree.xpath("//a//b//c")] for a path of descendant steps, from the
    document root: the elements tagged with the last step below an
    ancestor chain that matches the earlier steps, each once, in document
    order.  [steps] are the steps still to be matched at [e]; matching an
    ancestor as early as possible loses no result. *)
Fixpoint xpath_at (e : element) (steps : list string) {struct e} : list element :=
  match e with
  | Element t _ _ cs =>
      match steps with
      | [] => []
      | [s] =>
          (if bool_decide (t = s) then [e] else [])
            ++ flat_map (fun c => xpath_at c steps) cs
      | s :: rest =>
          flat_map (fun c => xpath_at c (if bool_decide (t = s) then rest else steps)) cs
      end
  end.

Definition xpath (tree : element) (steps : list string) : list element :=
  xpath_at tree steps.

(** The three node sets the conversions query. *)
Definition metadata_times (tree : element) : list element :=
  xpath tree [ns "metadata"; ns "time"].
Definition all_times (tree : element) : list element :=
  xpath tree [ns "time"].
Definition track_points (tree : element) : list element :=
  xpath tree [ns "trk"; ns "trkseg"; ns "trkpt"].
Definition track_names (tree : element) : list element :=
  xpath tree [ns "trk"; ns "name"].

(** ** Dates and times *)

(** A [datetime]: the wall-clock reading in microseconds since the epoch
    of the calendar, and the UTC offset in microseconds of an aware value
    ([None] for a naive one). *)
Record datetime : Type := Datetime {
  wall : Z;
  utcoffset : option Z
}.

(** The point in time a datetime denotes (for a naive one, its reading). *)
Definition instant (d : datetime) : Z :=
  wall d - default 0 (utcoffset d).

(** [a - b]: a [timedelta], in microseconds.  Mixing a naive and an aware
    datetime raises [TypeError], and so does subtracting [None]. *)
Definition datetime_sub (a : datetime) (b : option datetime) : result Z :=
  match b with
  | None => Raise TypeError
  | Some b =>
      match utcoffset a, utcoffset b with
      | Some oa, Some ob => Ok ((wall a - oa) - (wall b - ob))
      | None, None => Ok (wall a - wall b)
      | _, _ => Raise TypeError
      end
  end.

(** *** True division

    [td.total_seconds()] is the true division of the microseconds of the
    timedelta by [10**6]: a float, the double nearest to the exact
    quotient, the one with the even significand when two are equally
    near. *)

(** The integer nearest to [num / den], the even one at a tie
    ([0 <= num], [0 < den]). *)
Definition round_half_even (num den : Z) : Z :=
  let k := num / den in
  let r := num mod den in
  if 2 * r <? den then k
  else if den <? 2 * r then k + 1
  else if Z.even k then k else k + 1.

(** The fraction [(n / d) * 2 ** (- e)], as a numerator and a
    denominator. *)
Definition scaled (n d e : Z) : Z * Z :=
  (n * 2 ^ Z.max 0 (- e), d * 2 ^ Z.max 0 e).

(** [n / d] for two positive integers: the significand [k] and the
    exponent [e] of the double [k * 2 ** e], with [e] such that
    [2**52 <= (n / d) * 2 ** (- e) < 2**53] and [k] that number rounded.
    (A timedelta is at most [10**9] days long and at least a microsecond,
    so the quotient is neither beyond the largest double nor
    subnormal.) *)
Definition true_divide (n d : Z) : Z * Z :=
  let e1 := Z.log2 n - Z.log2 d - 52 in
  let e := if 2 ^ 52 * (scaled n d e1).2 <=? (scaled n d e1).1
           then e1 else e1 - 1 in
  (round_half_even (scaled n d e).1 (scaled n d e).2, e).

(** [int(n / d)]: the whole part of that double. *)
Definition int_true_divide (n d : Z) : Z :=
  Z.shiftl (true_divide n d).1 (true_divide n d).2.

(** [int(td.total_seconds())]: the microseconds divided by [10**6] as a
    float, truncated toward zero by [int]. *)
Definition int_total_seconds (td : Z) : Z :=
  Z.sgn td * int_true_divide (Z.abs td) 1000000.

(** ** The heap of dict objects and its monad *)

Definition loc : Type := positive.
Abbreviation heap := (gmap loc dict).

(** The dict a reference denotes.  A Python reference always denotes a live
    object; the properties below are stated for allocated references. *)
Definition deref (h : heap) (d : loc) : dict := default ∅ (h !! d).

Definition M (A : Type) : Type := heap -> heap * result A.

#[global] Instance M_ret : MRet M := fun A a h => (h, Ok a).
#[global] Instance M_bind : MBind M := fun A B f m h =>
  match m h with
  | (h', Ok a) => f a h'
  | (h', Raise e) => (h', Raise e)
  end.

Definition raise {A : Type} (e : exn) : M A := fun h => (h, Raise e).
Definition lift {A : Type} (r : result A) : M A := fun h => (h, r).

(** [{}]: a new dict object. *)
Definition new_dict : M loc := fun h =>
  let d := fresh (dom h) in (<[d := ∅]> h, Ok d).

(** [key in d]. *)
Definition dict_contains (d : loc) (key : string) : M bool := fun h =>
  (h, Ok (bool_decide (is_Some (deref h d !! key)))).

(** [d[key]]. *)
Definition dict_getitem (d : loc) (key : string) : M value := fun h =>
  (h, match deref h d !! key with
      | Some v => Ok v
      | None => Raise KeyError
      end).

(** [d[key] = v]. *)
Definition dict_setitem (d : loc) (key : string) (v : value) : M unit := fun h =>
  (<[d := <[key := v]> (deref h d)]> h, Ok tt).

(** The keys [for key in d] runs over. *)
Definition dict_keys (d : loc) : M (list string) := fun h =>
  (h, Ok (fst <$> map_to_list (deref h d))).

(** [for x in xs: body(x)]. *)
Fixpoint for_each {X : Type} (body : X -> M unit) (xs : list X) : M unit :=
  match xs with
  | [] => mret tt
  | x :: xs' => _ ← body x; for_each body xs'
  end.

(** [d[key].append(v)]; the list under [key] is referenced from [d]
    only. *)
Definition list_append (d : loc) (key : string) (v : value) : M unit :=
  l ← dict_getitem d key;
  match l with
  | VList vs => dict_setitem d key (VList (vs ++ [v]))
  | _ => raise AttributeError
  end.

(** ** enrich_data *)

Definition enrich_data (jdata additional_data : loc) (data_type : string) : M unit :=
  keys ← dict_keys additional_data;
  _ ← for_each (fun key =>
         present ← dict_contains jdata key;
         if negb present
         then v ← dict_getitem additional_data key; dict_setitem jdata key v
         else mret tt) keys;
  defaults ← lift (match DEFAULT_DATA !! data_type with
                   | Some d => Ok d
                   | None => Raise KeyError
                   end);
  for_each (fun key =>
      present ← dict_contains jdata key;
      if negb present
      then v ← lift (match defaults !! key with
                     | Some v => Ok v
                     | None => Raise KeyError
                     end);
           dict_setitem jdata key v
      else mret tt) (fst <$> map_to_list defaults).

(** The body both loops share: set [key] from [rd] unless it is present. *)
Definition fill_body (jdata : loc) (rd : string -> M value) (key : string) : M unit :=
  present ← dict_contains jdata key;
  if negb present then v ← rd key; dict_setitem jdata key v else mret tt.

(** What a loop of [fill_body] over [keys] makes of the dict [jd], reading
    the values from [src]. *)
Definition fill_missing (src : dict) (keys : list string) (jd : dict) : dict :=
  foldl (fun acc k =>
           match acc !! k, src !! k with
           | None, Some v => <[k := v]> acc
           | _, _ => acc
           end) jd keys.

(** ** The conversions *)

Section Conversion.

(** [float(s)] on a string: the float, or [None] where Python raises
    [ValueError]. *)
Variable float_of_string : string -> option spec_float.
(** [dateutil.parser.parse] on the text of an element. *)
Variable parse : option string -> result datetime.
(** [dt.astimezone(tz.tzlocal()).strftime('%a, %d %b %Y %H:%M:%S')] on an
    aware datetime. *)
Variable strftime_local : datetime -> result string.

(** [float(x)] where [x] is a string or [None]. *)
Definition py_float (x : option string) : result spec_float :=
  match x with
  | None => Raise TypeError
  | Some s =>
      match float_of_string s with
      | Some f => Ok f
      | None => Raise ValueError
      end
  end.

(** [start_time.astimezone(tz.tzlocal()).strftime(...)]: an attribute
    access on [None] raises [AttributeError], and [astimezone] refuses a
    naive datetime with [ValueError]. *)
Definition astimezone_strftime (start_time : option datetime) : result string :=
  match start_time with
  | None => Raise AttributeError
  | Some dt =>
      match utcoffset dt with
      | None => Raise ValueError
      | Some _ => strftime_local dt
      end
  end.

(** The body of the point loop of [convert_gpx_to_rkjson] up to the
    append: the dict [path_point] of one [trkpt]. *)
Definition path_point_of (start_time : option datetime) (point : element)
  : result dict :=
  lat ← py_float (get point "lat");
  let path_point : dict := <[KEY_LAT := VFloat lat]> ∅ in
  lon ← py_float (get point "lon");
  let path_point := <[KEY_LON := VFloat lon]> path_point in
  let path_point := <[KEY_TYPE := VStr "gps"]> path_point in
  path_point ←
    for_fold (fun element pp =>
                alt ← py_float (text element);
                Ok (<[KEY_ALT := VFloat alt]> pp))
             (iter point (clark NAMESPACE_ns "ele")) path_point;
  for_fold (fun element pp =>
              ts ← parse (text element);
              td ← datetime_sub ts start_time;
              Ok (<[KEY_TIMESTAMP := VInt (int_total_seconds td)]> pp))
           (iter point (clark NAMESPACE_ns "time")) path_point.

Definition convert_gpx_to_rkjson (data : element) (additional_data : loc)
  : M loc :=
  jdata ← new_dict;
  _ ← dict_setitem jdata KEY_PATH (VList []);
  let tree := data in
  let metadata_time := xpath tree [ns "metadata"; ns "time"] in
  start_time ←
    lift (match metadata_time with
          | e :: _ => st ← parse (text e); Ok (Some st)
          | [] =>
              let first_time := xpath tree [ns "time"] in
              match first_time with
              | e :: _ => st ← parse (text e); Ok (Some st)
              | [] => Ok None
              end
          end);
  s ← lift (astimezone_strftime start_time);
  _ ← dict_setitem jdata KEY_STARTTIME (VStr s);
  _ ← for_each (fun point =>
         path_point ← lift (path_point_of start_time point);
         _ ← list_append jdata KEY_PATH (VDict path_point);
         enrich_data jdata additional_data TYPE_RK)
       (xpath tree [ns "trk"; ns "trkseg"; ns "trkpt"]);
  mret jdata.

(** [convert_gpx_to_geojson] builds fresh dicts only and never reads
    [additional_data]; its result is the finished [jdata]. *)
Definition convert_gpx_to_geojson (data : element) (additional_data : loc)
  : result dict :=
  let jdata : dict :=
    <[KEY_FEATURES := VList []]> (<[KEY_TYPE := VStr "FeatureCollection"]> ∅) in
  let feature : dict :=
    <[KEY_PROP := VDict ∅]> (<[KEY_TYPE := VStr "Feature"]> ∅) in
  let tree := data in
  name ← index0 (xpath tree [ns "trk"; ns "name"]);
  let properties : dict := <[KEY_NAME := text_value (text name)]> ∅ in
  time ← index0 (xpath tree [ns "metadata"; ns "time"]);
  start_time ← parse (text time);
  s ← astimezone_strftime (Some start_time);
  let properties := <[KEY_TIME := VStr s]> properties in
  let feature := <[KEY_PROP := VDict properties]> feature in
  let geometry : dict :=
    <[KEY_COORDS := VList []]> (<[KEY_TYPE := VStr "LineString"]> ∅) in
  coords ←
    for_collect (fun point =>
                   lon ← py_float (get point "lon");
                   lat ← py_float (get point "lat");
                   Ok (VList [VFloat lon; VFloat lat]))
                (xpath tree [ns "trk"; ns "trkseg"; ns "trkpt"]);
  let geometry := <[KEY_COORDS := VList coords]> geometry in
  let feature := <[KEY_GEO := VDict geometry]> feature in
  Ok (<[KEY_FEATURES := VList [VDict feature]]> jdata).

(** The conversion as the specification words it: the same path loop,
    with the enrichment applied once after the loop instead of once per
    point.  It is compared with [convert_gpx_to_rkjson] below. *)
Definition convert_gpx_to_rkjson_enrich_once (data : element) (additional_data : loc)
  : M loc :=
  jdata ← new_dict;
  _ ← dict_setitem jdata KEY_PATH (VList []);
  let tree := data in
  let metadata_time := xpath tree [ns "metadata"; ns "time"] in
  start_time ←
    lift (match metadata_time with
          | e :: _ => st ← parse (text e); Ok (Some st)
          | [] =>
              let first_time := xpath tree [ns "time"] in
              match first_time with
              | e :: _ => st ← parse (text e); Ok (Some st)
              | [] => Ok None
              end
          end);
  s ← lift (astimezone_strftime start_time);
  _ ← dict_setitem jdata KEY_STARTTIME (VStr s);
  _ ← for_each (fun point =>
         path_point ← lift (path_point_of start_time point);
         list_append jdata KEY_PATH (VDict path_point))
       (xpath tree [ns "trk"; ns "trkseg"; ns "trkpt"]);
  _ ← enrich_data jdata additional_data TYPE_RK;
  mret jdata.

(** *** The conversion read as a function

    What [convert_gpx_to_rkjson] computes, as a function of the document
    and of the contents of [additional_data]; the run of the code is
    related to it in [convert_gpx_to_rkjson_run] below. *)

(** Lines 83 to 92: the start time, [None] when the document has no time
    element. *)
Definition resolve_start_time (tree : element) : result (option datetime) :=
  match metadata_times tree with
  | e :: _ => st ← parse (text e); Ok (Some st)
  | [] =>
      match all_times tree with
      | e :: _ => st ← parse (text e); Ok (Some st)
      | [] => Ok None
      end
  end.

(** The [timedelta] of a time element against the start time. *)
Definition elapsed_of (start_time : option datetime) (e : element) : result Z :=
  ts ← parse (text e); datetime_sub ts start_time.

(** The time element a track point takes its time from: the last one the
    loop over [point.iter(...)] visits. *)
Definition time_element (point : element) : option element :=
  last (iter point (ns "time")).

(** The point in time of a track point, where it has one that parses. *)
Definition point_instant (point : element) : option Z :=
  e ← time_element point;
  match parse (text e) with
  | Ok ts => Some (instant ts)
  | Raise _ => None
  end.

(** The record before the point loop. *)
Definition initial_record (s : string) : dict :=
  <[KEY_STARTTIME := VStr s]> (<[KEY_PATH := VList []]> ∅).

(** The record after the point loop over [points], which built the path
    points [pps]. *)
Definition final_record (points : list element) (pps : list dict)
    (jd ad : dict) : dict :=
  match points with
  | [] => jd
  | _ :: _ => <[KEY_PATH := VList (VDict <$> pps)]> (jd ∪ ad ∪ DEFAULTS_RK)
  end.

Definition rkjson_record (data : element) (ad : dict) : result dict :=
  start_time ← resolve_start_time data;
  s ← astimezone_strftime start_time;
  pps ← for_collect (path_point_of start_time) (track_points data);
  Ok (final_record (track_points data) pps (initial_record s) ad).

End Conversion.

(** ** Reading results *)

(** The record a conversion returned: the dict its result refers to. *)
Definition returned {A : Type} (out : heap * result loc) (f : dict -> option A)
  : option A :=
  match out with
  | (h, Ok jdata) => h !! jdata ≫= f
  | (_, Raise _) => None
  end.

(** The dicts of a list of dict values. *)
Definition as_dicts (v : value) : option (list dict) :=
  match v with
  | VList vs => mapM (fun v => match v with VDict d => Some d | _ => None end) vs
  | _ => None
  end.

Definition as_list (v : value) : option (list value) :=
  match v with
  | VList vs => Some vs
  | _ => None
  end.

Definition as_dict (v : value) : option dict :=
  match v with
  | VDict d => Some d
  | _ => None
  end.

(** [jdata['path']] of a RunKeeper record. *)
Definition path_of (jdata : dict) : option (list dict) :=
  jdata !! KEY_PATH ≫= as_dicts.

(** [path_point['timestamp']] of a path point that has one. *)
Definition timestamp_of (path_point : dict) : option Z :=
  match path_point !! KEY_TIMESTAMP with
  | Some (VInt n) => Some n
  | _ => None
  end.

(** [jdata['features'][0]['geometry']['coordinates']] of a GeoJSON record. *)
Definition coordinates_of (jdata : dict) : option (list value) :=
  fs ← jdata !! KEY_FEATURES ≫= as_list;
  f ← head fs ≫= as_dict;
  g ← f !! KEY_GEO ≫= as_dict;
  g !! KEY_COORDS ≫= as_list.

(** [jdata['features'][0]['properties']] of a GeoJSON record. *)
Definition properties_of (jdata : dict) : option dict :=
  fs ← jdata !! KEY_FEATURES ≫= as_list;
  f ← head fs ≫= as_dict;
  f !! KEY_PROP ≫= as_dict.

(** The GeoJSON record with the given name, formatted start time and
    coordinate list. *)
Definition geojson_record (name : value) (time : string) (coords : list value) : dict :=
  {[ KEY_TYPE := VStr "FeatureCollection";
     KEY_FEATURES :=
       VList [ VDict {[ KEY_TYPE := VStr "Feature";
                        KEY_PROP := VDict {[ KEY_NAME := name; KEY_TIME := VStr time ]};
                        KEY_GEO := VDict {[ KEY_TYPE := VStr "LineString";
                                            KEY_COORDS := VList coords ]} ]} ] ]}.

(** ** Sample documents and a sample environment

    A finite stand-in for the library calls on the strings the sample
    documents contain, on a machine whose local time zone is UTC. *)

Definition sample_floats : gmap string spec_float :=
  {[ "45.0" := S754_finite false 6333186975989760 (-47);
     "-122.0" := S754_finite true 8584986789675008 (-46);
     "10" := S754_finite false 5629499534213120 (-49);
     "45.001" := S754_finite false 6333327713478115 (-47);
     "-122.001" := S754_finite true 8585057158419186 (-46);
     "12" := S754_finite false 6755399441055744 (-49) ]}.

Definition sample_float_of_string (s : string) : option spec_float :=
  sample_floats !! s.

Definition T0 : Z := 1367409600000000.

Definition sample_times : gmap string datetime :=
  {[ "2013-05-01T12:00:00Z" := Datetime T0 (Some 0);
     "2013-05-01T12:00:30Z" := Datetime (T0 + 30000000) (Some 0);
     "2013-05-01T12:01:00Z" := Datetime (T0 + 60000000) (Some 0);
     "2013-05-01T11:59:59.500Z" := Datetime (T0 - 500000) (Some 0) ]}.

Definition sample_parse (t : option string) : result datetime :=
  match t with
  | None => Raise TypeError
  | Some s =>
      match sample_times !! s with
      | Some d => Ok d
      | None => Raise ValueError
      end
  end.

Definition sample_formats : gmap Z string :=
  {[ T0 := "Wed, 01 May 2013 12:00:00";
     T0 + 60000000 := "Wed, 01 May 2013 12:01:00" ]}.

Definition sample_strftime_local (d : datetime) : result string :=
  match sample_formats !! instant d with
  | Some s => Ok s
  | None => Raise ValueError
  end.

Definition gpx_element (name : string) (cs : list element) : element :=
  Element (ns name) ∅ None cs.

Definition gpx_text (name s : string) : element :=
  Element (ns name) ∅ (Some s) [].

Definition trkpt (lat lon : string) (cs : list element) : element :=
  Element (ns "trkpt") {[ "lat" := lat; "lon" := lon ]} None cs.

(** The document of the round-trip scenario: metadata time [t0], two track
    points, the second [t1]. *)
Definition round_trip_gpx (t0 t1 : string) : element :=
  gpx_element "gpx"
    [ gpx_element "metadata" [ gpx_text "time" t0 ];
      gpx_element "trk"
        [ gpx_text "name" "Morning run";
          gpx_element "trkseg"
            [ trkpt "45.0" "-122.0" [ gpx_text "ele" "10"; gpx_text "time" t0 ];
              trkpt "45.001" "-122.001" [ gpx_text "ele" "12"; gpx_text "time" t1 ] ] ] ].


(** Neither a name nor a time element. *)
Definition gpx_bare : element :=
  gpx_element "gpx"
    [ gpx_element "trk" [ gpx_element "trkseg" [ trkpt "45.0" "-122.0" [] ] ] ].

(** No time element at all. *)
Definition gpx_no_time : element :=
  gpx_element "gpx"
    [ gpx_element "trk"
        [ gpx_text "name" "Morning run";
          gpx_element "trkseg" [ trkpt "45.0" "-122.0" [] ] ] ].

(** No name element in the track. *)
Definition gpx_no_name : element :=
  gpx_element "gpx"
    [ gpx_element "metadata" [ gpx_text "time" "2013-05-01T12:00:00Z" ];
      gpx_element "trk"
        [ gpx_element "trkseg"
            [ trkpt "45.0" "-122.0" [ gpx_text "time" "2013-05-01T12:00:00Z" ] ] ] ].

(** A track without points. *)
Definition gpx_no_points : element :=
  gpx_element "gpx"
    [ gpx_element "metadata" [ gpx_text "time" "2013-05-01T12:00:00Z" ];
      gpx_element "trk" [ gpx_text "name" "Morning run"; gpx_element "trkseg" [] ] ].

(** A point recorded half a second before the metadata time. *)
Definition gpx_early_point : element :=
  gpx_element "gpx"
    [ gpx_element "metadata" [ gpx_text "time" "2013-05-01T12:00:00Z" ];
      gpx_element "trk"
        [ gpx_element "trkseg"
            [ trkpt "45.0" "-122.0" [ gpx_text "time" "2013-05-01T11:59:59.500Z" ] ] ] ].

(** A metadata time (the time the file was written) after the track. *)
Definition gpx_late_metadata : element :=
  gpx_element "gpx"
    [ gpx_element "metadata" [ gpx_text "time" "2013-05-01T12:01:00Z" ];
      gpx_element "trk"
        [ gpx_element "trkseg"
            [ trkpt "45.0" "-122.0" [ gpx_text "time" "2013-05-01T12:00:00Z" ];
              trkpt "45.001" "-122.001" [ gpx_text "time" "2013-05-01T12:00:30Z" ] ] ] ].

(** The round-trip document at noon and thirty seconds later, the path it
    converts to and its GeoJSON coordinates. *)
Definition sample_gpx : element :=
  round_trip_gpx "2013-05-01T12:00:00Z" "2013-05-01T12:00:30Z".

Definition sample_path : list dict :=
  [ {[ KEY_LAT := VFloat (S754_finite false 6333186975989760 (-47));
       KEY_LON := VFloat (S754_finite true 8584986789675008 (-46));
       KEY_ALT := VFloat (S754_finite false 5629499534213120 (-49));
       KEY_TIMESTAMP := VInt 0;
       KEY_TYPE := VStr "gps" ]};
    {[ KEY_LAT := VFloat (S754_finite false 6333327713478115 (-47));
       KEY_LON := VFloat (S754_finite true 8585057158419186 (-46));
       KEY_ALT := VFloat (S754_finite false 6755399441055744 (-49));
       KEY_TIMESTAMP := VInt 30;
       KEY_TYPE := VStr "gps" ]} ].

Definition sample_lonlat : list (spec_float * spec_float) :=
  [ (S754_finite true 8584986789675008 (-46), S754_finite false 6333186975989760 (-47));
    (S754_finite true 8585057158419186 (-46), S754_finite false 6333327713478115 (-47)) ].

(** A heap in which the caller's [additional_data] is the dict at
    reference 1. *)
Definition caller_heap (additional_data : dict) : heap := {[ 1%positive := additional_data ]}.

Definition sample_rkjson (data : element) (additional_data : dict) : heap * result loc :=
  convert_gpx_to_rkjson sample_float_of_string sample_parse sample_strftime_local
    data 1%positive (caller_heap additional_data).

Definition sample_rkjson_enrich_once (data : element) (additional_data : dict)
  : heap * result loc :=
  convert_gpx_to_rkjson_enrich_once sample_float_of_string sample_parse
    sample_strftime_local data 1%positive (caller_heap additional_data).

Definition sample_geojson (data : element) : result dict :=
  convert_gpx_to_geojson sample_float_of_string sample_parse sample_strftime_local
    data 1%positive.

(** ** convert_file *)

(** What ends a call of [convert_file] early: an exception of a
    conversion, the [IOError] of [open], the [XMLSyntaxError] of
    [etree.fromstring], or [sys.exit]. *)
Inductive failure : Type :=
  | Builtin (e : exn)
  | IOError
  | XMLSyntaxError
  | SystemExit (code : Z).

(** The world [convert_file] acts on: the regular files by the file they
    name, the lines printed, and the heap of dicts. *)
Record world : Type := World {
  files : gmap string string;
  stdout : list string;
  objects : heap
}.

Section Files.

Variable float_of_string : string -> option spec_float.
Variable parse : option string -> result datetime.
Variable strftime_local : datetime -> result string.
(** [etree.fromstring] on the text of a file: the root element, or [None]
    where lxml raises [XMLSyntaxError]. *)
Variable fromstring : string -> option element.
(** [json.dumps] on a record. *)
Variable dumps : dict -> string.
(** The file a path names (two paths may name one file). *)
Variable realpath : string -> string.
(** Whether the system lets the process open the path for reading and for
    writing. *)
Variable may_read : string -> bool.
Variable may_write : string -> bool.

(** [os.path.isfile(path)]. *)
Definition isfile (w : world) (path : string) : bool :=
  bool_decide (is_Some (files w !! realpath path)).

(** [print line]. *)
Definition print (line : string) (w : world) : world :=
  World (files w) (stdout w ++ [line]) (objects w).

(** [open(path, 'w')]: the file is created, or emptied when it exists. *)
Definition open_w (path : string) (w : world) : world :=
  World (<[realpath path := ""]> (files w)) (stdout w) (objects w).

(** [fp.read()] on a file opened for reading: what the file holds at the
    time of the read. *)
Definition read (path : string) (w : world) : string :=
  default "" (files w !! realpath path).

(** [fp.write(odata)] on the file opened by [open_w], and its [close]. *)
Definition write (path odata : string) (w : world) : world :=
  World (<[realpath path := odata]> (files w)) (stdout w) (objects w).

Definition with_objects (h : heap) (w : world) : world :=
  World (files w) (stdout w) h.

Definition convert_file (ifile ofile : string) (force : bool)
    (additional_data : loc) (format_type : string) (w : world)
  : world * option failure :=
  if negb (isfile w ifile)
  then (print ("Input file '" +:+ ifile +:+ "' does not exist") w,
        Some (SystemExit (-1)))
  else if isfile w ofile && negb force
  then (print ("Output file '" +:+ ofile +:+ "' exists. Use -f to overwrite") w,
        Some (SystemExit (-1)))
  else if negb (may_read ifile) then (w, Some IOError)
  else if negb (may_write ofile) then (w, Some IOError)
  else
    let w := open_w ofile w in
    let odata := "" in
    if bool_decide (format_type = TYPE_RK) then
      (* convert_gpx_to_rkjson(ifp.read(), ...): jdata and its empty path
         exist when etree.fromstring raises *)
      match fromstring (read ifile w) with
      | None =>
          (with_objects (<[fresh (dom (objects w)) := {[ KEY_PATH := VList [] ]}]>
                           (objects w)) w,
           Some XMLSyntaxError)
      | Some tree =>
          match convert_gpx_to_rkjson float_of_string parse strftime_local
                  tree additional_data (objects w) with
          | (h, Ok jdata) =>
              (write ofile (dumps (deref h jdata)) (with_objects h w), None)
          | (h, Raise e) => (with_objects h w, Some (Builtin e))
          end
      end
    else if bool_decide (format_type = TYPE_GEOJSON) then
      match fromstring (read ifile w) with
      | None => (w, Some XMLSyntaxError)
      | Some tree =>
          match convert_gpx_to_geojson float_of_string parse strftime_local
                  tree additional_data with
          | Ok jdata => (write ofile (dumps jdata) w, None)
          | Raise e => (w, Some (Builtin e))
          end
      end
    else (write ofile odata w, None).

End Files.

(** A stand-in for the file system and the two library calls of
    [convert_file]: every path names itself and can be opened, the parser
    knows the text of three documents, and the serialiser shows the start
    time of a record only. *)
Definition sample_xml : string :=
  "<gpx xmlns='http://www.topografix.com/GPX/1/1'><metadata><time>2013-05-01T12:00:00Z</time></metadata><trk><name>Morning run</name><trkseg><trkpt lat='45.0' lon='-122.0'><ele>10</ele><time>2013-05-01T12:00:00Z</time></trkpt><trkpt lat='45.001' lon='-122.001'><ele>12</ele><time>2013-05-01T12:00:30Z</time></trkpt></trkseg></trk></gpx>".

Definition no_time_xml : string :=
  "<gpx xmlns='http://www.topografix.com/GPX/1/1'><trk><name>Morning run</name><trkseg><trkpt lat='45.0' lon='-122.0'/></trkseg></trk></gpx>".

Definition sample_fromstring (data : string) : option element :=
  if bool_decide (data = sample_xml) then Some sample_gpx
  else if bool_decide (data = no_time_xml) then Some gpx_no_time
  else None.

Definition sample_dumps (jd : dict) : string :=
  match jd !! KEY_STARTTIME with
  | Some (VStr s) => "{start_time: " +:+ s +:+ ", ...}"
  | _ => "{...}"
  end.

Definition sample_convert_file (ifile ofile : string) (force : bool)
    (format_type : string) (w : world) : world * option failure :=
  convert_file sample_float_of_string sample_parse sample_strftime_local
    sample_fromstring sample_dumps (fun path => path) (fun _ => true) (fun _ => true)
    ifile ofile force 1%positive format_type w.

(** A world with the track in [run.gpx], an older output in [old.json] and
    empty overrides. *)
Definition sample_world : world :=
  World {[ "run.gpx" := sample_xml; "bad.gpx" := no_time_xml; "old.json" := "{}" ]}
        [] (caller_heap ∅).

(** A track whose second point has no [lat] attribute. *)
Definition gpx_bad_point : element :=
  gpx_element "gpx"
    [ gpx_element "metadata" [ gpx_text "time" "2013-05-01T12:00:00Z" ];
      gpx_element "trk"
        [ gpx_element "trkseg"
            [ trkpt "45.0" "-122.0" [];
              Element (ns "trkpt") {[ "lon" := "-122.001" ]} None [];
              trkpt "45.002" "-122.002" [] ] ] ].

(** A parser that reads every time as noon without a time zone. *)
Definition naive_parse (t : option string) : result datetime :=
  Ok (Datetime T0 None).

(** * Properties *)

(** ** Running the heap monad *)

Lemma run_bind {A B : Type} (m : M A) (f : A -> M B) (h : heap) :
  (m ≫= f) h =
  match m h with
  | (h', Ok a) => f a h'
  | (h', Raise e) => (h', Raise e)
  end.
Proof. reflexivity. Qed.

Lemma deref_lookup (h : heap) (d : loc) (jd : dict) :
  h !! d = Some jd -> deref h d = jd.
Proof. intros E. unfold deref. by rewrite E. Qed.

Lemma deref_insert (h : heap) (d : loc) (jd : dict) :
  deref (<[d := jd]> h) d = jd.
Proof. unfold deref. by rewrite lookup_insert_eq. Qed.

(** ** The two loops of [enrich_data] *)

Lemma fill_missing_lookup (src : dict) (keys : list string) (jd : dict) (k : string) :
  fill_missing src keys jd !! k =
  match jd !! k with
  | Some v => Some v
  | None => if decide (k ∈ keys) then src !! k else None
  end.
Proof.
  revert jd. induction keys as [|k0 keys IH]; intros jd; simpl.
  - destruct (jd !! k); [done|].
    destruct (decide (k ∈ [])) as [Hin|]; [|done]. by apply not_elem_of_nil in Hin.
  - change (foldl _ ?a keys) with (fill_missing src keys a). rewrite IH. clear IH.
    destruct (decide (k = k0)) as [->|Hne].
    + rewrite (decide_True (P := k0 ∈ k0 :: keys)) by apply list_elem_of_here.
      destruct (jd !! k0) eqn:Ej; [by rewrite Ej|].
      destruct (src !! k0) eqn:Es.
      * by rewrite lookup_insert_eq.
      * rewrite Ej. by destruct (decide _).
    + assert (Hl : (match jd !! k0, src !! k0 with
                    | None, Some v => <[k0 := v]> jd
                    | _, _ => jd
                    end) !! k = jd !! k).
      { destruct (jd !! k0), (src !! k0); try done. by rewrite lookup_insert_ne. }
      rewrite Hl. destruct (jd !! k); [done|].
      destruct (decide (k ∈ keys)) as [Hin|Hnin].
      * by rewrite decide_True by (by apply list_elem_of_further).
      * rewrite decide_False; [done|]. intros Hc. apply elem_of_cons in Hc.
        destruct Hc; congruence.
Qed.

(** Over all the keys of [src], the loop is the left-biased union. *)
Lemma fill_missing_all (src jd : dict) :
  fill_missing src (fst <$> map_to_list src) jd = jd ∪ src.
Proof.
  apply map_eq. intros k. rewrite fill_missing_lookup, lookup_union.
  destruct (jd !! k) eqn:Ej.
  - by destruct (src !! k).
  - destruct (decide _) as [Hin|Hnin].
    + by destruct (src !! k).
    + destruct (src !! k) eqn:Es; [|done]. exfalso. apply Hnin.
      apply list_elem_of_fmap. exists (k, v). split; [done|].
      by apply elem_of_map_to_list.
Qed.

Lemma keys_present (src : dict) (k : string) :
  k ∈ fst <$> map_to_list src -> is_Some (src !! k).
Proof.
  intros Hin. apply list_elem_of_fmap in Hin as [[k' v] [-> Hin]].
  apply elem_of_map_to_list in Hin. by exists v.
Qed.

(** The loop writes to [jdata] only; [rd] has to deliver the values of
    [src] on every heap that differs from the initial one at [jdata]. *)
Lemma for_each_fill (jdata : loc) (rd : string -> M value) (src : dict)
    (keys : list string) (h : heap) (jd : dict) :
  h !! jdata = Some jd ->
  (forall h' k, k ∈ keys -> (forall l, l ≠ jdata -> h' !! l = h !! l) ->
     exists v, src !! k = Some v /\ rd k h' = (h', Ok v)) ->
  for_each (fill_body jdata rd) keys h
  = (<[jdata := fill_missing src keys jd]> h, Ok tt).
Proof.
  revert h jd. induction keys as [|k keys IH]; intros h jd Hj Hrd.
  - simpl. unfold mret, M_ret. by rewrite insert_id.
  - cbn [for_each]. rewrite run_bind. unfold fill_body at 1.
    rewrite run_bind. unfold dict_contains at 1. rewrite (deref_lookup _ _ _ Hj).
    destruct (Hrd h k) as (v & Hs & Hr); [apply list_elem_of_here|done|].
    cbn [fill_missing foldl]. change (foldl _ ?a keys) with (fill_missing src keys a).
    rewrite Hs. destruct (jd !! k) as [w|] eqn:Ek.
    + rewrite bool_decide_true by eauto. cbn [negb]. unfold mret at 1, M_ret at 1.
      apply IH; [done|]. intros h' k' Hin Hag. apply Hrd; [|done].
      by apply list_elem_of_further.
    + rewrite bool_decide_false by (by intros [? ?]). cbn [negb].
      rewrite run_bind, Hr. unfold dict_setitem at 1.
      rewrite (deref_lookup _ _ _ Hj).
      rewrite (IH (<[jdata := <[k := v]> jd]> h) (<[k := v]> jd)).
      * by rewrite insert_insert_eq.
      * by rewrite lookup_insert_eq.
      * intros h' k' Hin Hag. apply Hrd; [by apply list_elem_of_further|].
        intros l Hl. rewrite Hag by done. by rewrite lookup_insert_ne.
Qed.

(** When every key is present, the loop does nothing, whatever [rd] is. *)
Lemma for_each_fill_present (jdata : loc) (rd : string -> M value)
    (keys : list string) (h : heap) (jd : dict) :
  h !! jdata = Some jd ->
  (forall k, k ∈ keys -> is_Some (jd !! k)) ->
  for_each (fill_body jdata rd) keys h = (h, Ok tt).
Proof.
  intros Hj. induction keys as [|k keys IH]; intros Hp; [done|].
  cbn [for_each]. rewrite run_bind. unfold fill_body at 1.
  rewrite run_bind. unfold dict_contains at 1. rewrite (deref_lookup _ _ _ Hj).
  rewrite bool_decide_true by (apply Hp, list_elem_of_here). cbn [negb].
  unfold mret at 1, M_ret at 1. apply IH. intros k' Hin. apply Hp.
  by apply list_elem_of_further.
Qed.

(** The first loop of [enrich_data], also when both references denote the
    same dict. *)
Lemma enrich_overrides_run (jdata additional_data : loc) (h : heap) (jd ad : dict) :
  h !! jdata = Some jd -> h !! additional_data = Some ad ->
  for_each (fill_body jdata (dict_getitem additional_data))
           (fst <$> map_to_list ad) h
  = (<[jdata := jd ∪ ad]> h, Ok tt).
Proof.
  intros Hj Ha. destruct (decide (jdata = additional_data)) as [->|Hne].
  - assert (jd = ad) as -> by congruence.
    rewrite (for_each_fill_present _ _ _ h ad Hj) by apply keys_present.
    by rewrite map_union_idemp, insert_id.
  - rewrite (for_each_fill _ _ ad _ h jd Hj).
    + by rewrite fill_missing_all.
    + intros h' k Hin Hag. apply keys_present in Hin as [v Hv]. exists v.
      split; [done|]. unfold dict_getitem.
      rewrite (deref_lookup h' additional_data ad).
      * by rewrite Hv.
      * rewrite Hag by done. done.
Qed.

(** [enrich_data] in closed form: the record becomes the left-biased union
    of the record, the overrides and the defaults of the type; a type
    without defaults raises [KeyError] after the overrides are filled in. *)
Lemma enrich_data_run (jdata additional_data : loc) (data_type : string)
    (h : heap) (jd ad : dict) :
  h !! jdata = Some jd -> h !! additional_data = Some ad ->
  enrich_data jdata additional_data data_type h
  = match DEFAULT_DATA !! data_type with
    | Some defaults => (<[jdata := jd ∪ ad ∪ defaults]> h, Ok tt)
    | None => (<[jdata := jd ∪ ad]> h, Raise KeyError)
    end.
Proof.
  intros Hj Ha. unfold enrich_data. rewrite run_bind. unfold dict_keys at 1.
  rewrite (deref_lookup _ _ _ Ha). rewrite run_bind.
  change (for_each _ (fst <$> map_to_list ad) h)
    with (for_each (fill_body jdata (dict_getitem additional_data))
                   (fst <$> map_to_list ad) h).
  rewrite (enrich_overrides_run _ _ _ _ _ Hj Ha). rewrite run_bind.
  unfold lift at 1. destruct (DEFAULT_DATA !! data_type) as [defaults|]; [|done].
  match goal with
  | |- for_each ?b _ _ = _ =>
      change b with (fill_body jdata (fun key =>
        lift (match defaults !! key with
              | Some v => Ok v
              | None => Raise KeyError
              end)))
  end.
  rewrite (for_each_fill _ _ defaults _ _ (jd ∪ ad)).
  - by rewrite fill_missing_all, insert_insert_eq.
  - by rewrite lookup_insert_eq.
  - intros h' k Hin _. apply keys_present in Hin as [v Hv]. exists v.
    split; [done|]. unfold lift. by rewrite Hv.
Qed.

Lemma DEFAULT_DATA_runkeeper : DEFAULT_DATA !! TYPE_RK = Some DEFAULTS_RK.
Proof. apply lookup_singleton_eq. Qed.

Lemma DEFAULT_DATA_other (data_type : string) :
  data_type ≠ TYPE_RK -> DEFAULT_DATA !! data_type = None.
Proof. intros Hne. by apply lookup_singleton_ne. Qed.

Lemma enrich_data_runkeeper (jdata additional_data : loc) (h : heap) (jd ad : dict) :
  h !! jdata = Some jd -> h !! additional_data = Some ad ->
  enrich_data jdata additional_data TYPE_RK h
  = (<[jdata := jd ∪ ad ∪ DEFAULTS_RK]> h, Ok tt).
Proof.
  intros Hj Ha. rewrite (enrich_data_run _ _ _ _ _ _ Hj Ha).
  by rewrite DEFAULT_DATA_runkeeper.
Qed.

(** A second enrichment finds every key set. *)
Lemma enrich_absorb (jd ad defaults : dict) :
  (jd ∪ ad ∪ defaults) ∪ ad ∪ defaults = jd ∪ ad ∪ defaults.
Proof.
  apply map_eq. intros k. rewrite !lookup_union.
  by destruct (jd !! k), (ad !! k), (defaults !! k).
Qed.

(** Enrichment is idempotent on the record, for every type. *)
Lemma enrich_data_idempotent (jdata additional_data : loc) (data_type : string)
    (h : heap) (jd ad : dict) :
  jdata ≠ additional_data ->
  h !! jdata = Some jd -> h !! additional_data = Some ad ->
  let once := enrich_data jdata additional_data data_type h in
  enrich_data jdata additional_data data_type once.1 = once.
Proof.
  intros Hne Hj Ha once. subst once.
  rewrite (enrich_data_run _ _ _ _ _ _ Hj Ha).
  destruct (DEFAULT_DATA !! data_type) as [defaults|] eqn:Ed; cbn [fst].
  - rewrite (enrich_data_run _ _ _ _ (jd ∪ ad ∪ defaults) ad).
    + by rewrite Ed, enrich_absorb, insert_insert_eq.
    + by rewrite lookup_insert_eq.
    + by rewrite lookup_insert_ne.
  - rewrite (enrich_data_run _ _ _ _ (jd ∪ ad) ad).
    + assert (jd ∪ ad ∪ ad = jd ∪ ad) as ->.
      { apply map_eq. intros k. rewrite !lookup_union.
        by destruct (jd !! k), (ad !! k). }
      by rewrite Ed, insert_insert_eq.
    + by rewrite lookup_insert_eq.
    + by rewrite lookup_insert_ne.
Qed.

(** ** True division and [int] *)

Lemma round_half_even_bounds (num den : Z) :
  0 < den ->
  num / den <= round_half_even num den <= num / den + 1
  /\ 2 * (round_half_even num den * den - num) <= den
  /\ 2 * (num - round_half_even num den * den) <= den.
Proof.
  intros Hden. unfold round_half_even.
  pose proof (Z.div_mod num den ltac:(lia)) as Hdm.
  pose proof (Z.mod_pos_bound num den Hden) as Hr.
  destruct (Z.ltb_spec (2 * (num mod den)) den);
    [|destruct (Z.ltb_spec den (2 * (num mod den)));
      [|destruct (Z.even (num / den))]]; nia.
Qed.

Lemma round_half_even_mono (num1 num2 den : Z) :
  0 < den -> num1 <= num2 ->
  round_half_even num1 den <= round_half_even num2 den.
Proof.
  intros Hden Hle.
  pose proof (Z.div_le_mono num1 num2 den Hden Hle) as Hdiv.
  destruct (decide (num1 / den = num2 / den)) as [Heq|Hne].
  - pose proof (Z.div_mod num1 den ltac:(lia)) as Hdm1.
    pose proof (Z.div_mod num2 den ltac:(lia)) as Hdm2.
    assert (num1 mod den <= num2 mod den) as Hr by nia.
    unfold round_half_even. rewrite Heq.
    destruct (Z.ltb_spec (2 * (num1 mod den)) den),
             (Z.ltb_spec (2 * (num2 mod den)) den),
             (Z.ltb_spec den (2 * (num1 mod den))),
             (Z.ltb_spec den (2 * (num2 mod den))),
             (Z.even (num2 / den)); lia.
  - pose proof (round_half_even_bounds num1 den Hden) as [? _].
    pose proof (round_half_even_bounds num2 den Hden) as [? _]. lia.
Qed.

Lemma pow2_pos (a : Z) : 0 <= a -> 0 < 2 ^ a.
Proof. intros. by apply Z.pow_pos_nonneg. Qed.

Lemma scaled_pos (n d e : Z) :
  0 < n -> 0 < d -> 0 < (scaled n d e).1 /\ 0 < (scaled n d e).2.
Proof.
  intros Hn Hd. cbn.
  pose proof (pow2_pos (Z.max 0 (- e)) ltac:(lia)).
  pose proof (pow2_pos (Z.max 0 e) ltac:(lia)). nia.
Qed.

Lemma scaled_den (n1 n2 d e : Z) : (scaled n1 d e).2 = (scaled n2 d e).2.
Proof. reflexivity. Qed.

Lemma scaled_num_mono (n1 n2 d e : Z) :
  n1 <= n2 -> (scaled n1 d e).1 <= (scaled n2 d e).1.
Proof.
  intros Hle. cbn. pose proof (pow2_pos (Z.max 0 (- e)) ltac:(lia)). nia.
Qed.

(** Scaling by a smaller exponent multiplies the fraction by the power of
    two between the exponents. *)
Lemma scaled_shift (n d e e' : Z) :
  e <= e' ->
  (scaled n d e).1 * (scaled n d e').2
  = 2 ^ (e' - e) * ((scaled n d e').1 * (scaled n d e).2).
Proof.
  intros Hle. cbn.
  assert (2 ^ Z.max 0 (- e) * 2 ^ Z.max 0 e'
          = 2 ^ (e' - e) * (2 ^ Z.max 0 (- e') * 2 ^ Z.max 0 e)) as Hp.
  { rewrite <- !Z.pow_add_r by lia. f_equal. lia. }
  transitivity (n * d * (2 ^ Z.max 0 (- e) * 2 ^ Z.max 0 e')); [ring|].
  rewrite Hp. ring.
Qed.

(** The significand of a quotient lies between [2**52] and [2**53]. *)
Lemma true_divide_normal (n d : Z) :
  0 < n -> 0 < d ->
  2 ^ 52 * (scaled n d (true_divide n d).2).2 <= (scaled n d (true_divide n d).2).1
  /\ (scaled n d (true_divide n d).2).1 < 2 ^ 53 * (scaled n d (true_divide n d).2).2.
Proof.
  intros Hn Hd. unfold true_divide. cbn [snd].
  set (e1 := Z.log2 n - Z.log2 d - 52).
  pose proof (Z.log2_spec n Hn) as [Hn1 Hn2].
  pose proof (Z.log2_spec d Hd) as [Hd1 Hd2].
  pose proof (Z.log2_nonneg n) as Hln. pose proof (Z.log2_nonneg d) as Hld.
  assert ((scaled n d e1).1 < 2 ^ 53 * (scaled n d e1).2) as Hup.
  { cbn.
    assert (2 ^ Z.succ (Z.log2 n) * 2 ^ Z.max 0 (- e1)
            = 2 ^ 53 * (2 ^ Z.log2 d * 2 ^ Z.max 0 e1)) as Hp.
    { rewrite <- !Z.pow_add_r by lia. f_equal. lia. }
    pose proof (pow2_pos (Z.max 0 (- e1)) ltac:(lia)).
    pose proof (pow2_pos (Z.max 0 e1) ltac:(lia)). nia. }
  assert (2 ^ 52 * (scaled n d (e1 - 1)).2 <= (scaled n d (e1 - 1)).1) as Hlow.
  { cbn.
    assert (2 ^ 52 * (2 ^ Z.succ (Z.log2 d) * 2 ^ Z.max 0 (e1 - 1))
            = 2 ^ Z.log2 n * 2 ^ Z.max 0 (- (e1 - 1))) as Hp.
    { rewrite <- !Z.pow_add_r by lia. f_equal. lia. }
    pose proof (pow2_pos (Z.max 0 (- (e1 - 1))) ltac:(lia)).
    pose proof (pow2_pos (Z.max 0 (e1 - 1)) ltac:(lia)). nia. }
  destruct (Z.leb_spec (2 ^ 52 * (scaled n d e1).2) (scaled n d e1).1) as [Ht|Ht].
  - done.
  - split; [done|].
    pose proof (scaled_shift n d (e1 - 1) e1 ltac:(lia)) as Hs.
    replace (e1 - (e1 - 1)) with 1 in Hs by lia. change (2 ^ 1) with 2 in Hs.
    pose proof (scaled_pos n d e1 Hn Hd) as [? ?].
    pose proof (scaled_pos n d (e1 - 1) Hn Hd) as [? ?].
    nia.
Qed.

Lemma true_divide_significand (n d : Z) :
  0 < n -> 0 < d -> 2 ^ 52 <= (true_divide n d).1 <= 2 ^ 53.
Proof.
  intros Hn Hd. pose proof (true_divide_normal n d Hn Hd) as [Hlo Hhi].
  pose proof (scaled_pos n d (true_divide n d).2 Hn Hd) as [Hnum Hden].
  change (true_divide n d).1
    with (round_half_even (scaled n d (true_divide n d).2).1
                          (scaled n d (true_divide n d).2).2).
  pose proof (round_half_even_bounds (scaled n d (true_divide n d).2).1 _ Hden)
    as [[Hk1 Hk2] _].
  revert Hlo Hhi Hnum Hden Hk1 Hk2.
  generalize (scaled n d (true_divide n d).2).1 as num.
  generalize (scaled n d (true_divide n d).2).2 as den.
  intros den num Hlo Hhi Hnum Hden Hk1 Hk2.
  assert (2 ^ 52 <= num / den) by (apply Z.div_le_lower_bound; lia).
  assert (num / den < 2 ^ 53) by (apply Z.div_lt_upper_bound; lia).
  lia.
Qed.

(** A larger dividend has no smaller exponent. *)
Lemma true_divide_exponent_mono (n1 n2 d : Z) :
  0 < n1 -> n1 <= n2 -> 0 < d ->
  (true_divide n1 d).2 <= (true_divide n2 d).2.
Proof.
  intros Hn1 Hle Hd.
  pose proof (true_divide_normal n1 d Hn1 Hd) as [Hlo1 _].
  pose proof (true_divide_normal n2 d ltac:(lia) Hd) as [_ Hhi2].
  revert Hlo1 Hhi2.
  generalize (true_divide n1 d).2 as e1. generalize (true_divide n2 d).2 as e2.
  intros e2 e1 Hlo1 Hhi2.
  destruct (Z.le_gt_cases e1 e2) as [|Hgt]; [done|exfalso].
  pose proof (scaled_shift n2 d e2 e1 ltac:(lia)) as Hs.
  pose proof (scaled_num_mono n1 n2 d e1 Hle) as Hm.
  rewrite (scaled_den n1 n2) in Hlo1.
  pose proof (scaled_pos n2 d e1 ltac:(lia) Hd) as [? ?].
  pose proof (scaled_pos n2 d e2 ltac:(lia) Hd) as [? ?].
  assert (2 <= 2 ^ (e1 - e2)) as Hp.
  { change 2 with (2 ^ 1) at 1. apply Z.pow_le_mono_r; lia. }
  revert Hlo1 Hhi2 Hs Hm H H0 H1 H2 Hp.
  generalize (2 ^ (e1 - e2)) as p.
  generalize (scaled n2 d e1).1 as a1. generalize (scaled n2 d e1).2 as b1.
  generalize (scaled n2 d e2).1 as a2. generalize (scaled n2 d e2).2 as b2.
  generalize (scaled n1 d e1).1 as a0.
  intros a0 b2 a2 b1 a1 p Hlo1 Hhi2 Hs Hm Ha1 Hb1 Ha2 Hb2 Hp.
  assert (2 * (a1 * b2) <= a2 * b1) as H1 by nia.
  assert (2 ^ 52 * b1 * b2 <= a1 * b2) as H2 by nia.
  assert (a2 * b1 < 2 ^ 53 * b2 * b1) as H3 by nia.
  change (2 ^ 53) with (2 * 2 ^ 52) in H3. lia.
Qed.

Lemma shiftl_mono (a b e : Z) : a <= b -> Z.shiftl a e <= Z.shiftl b e.
Proof.
  intros Hle. destruct (Z.le_gt_cases 0 e).
  - rewrite !Z.shiftl_mul_pow2 by done. pose proof (pow2_pos e ltac:(lia)). nia.
  - rewrite !Z.shiftl_div_pow2 by lia.
    apply Z.div_le_mono; [apply pow2_pos; lia|done].
Qed.

Lemma shiftl_pow2 (a e : Z) : 0 <= a -> Z.shiftl (2 ^ a) e = 2 ^ (a + e).
Proof.
  intros Ha. destruct (Z.le_gt_cases 0 e).
  - rewrite Z.shiftl_mul_pow2 by done. by rewrite Z.pow_add_r.
  - rewrite Z.shiftl_div_pow2 by lia. destruct (Z.le_gt_cases 0 (a + e)).
    + replace a with ((a + e) + - e) at 1 by lia.
      rewrite Z.pow_add_r by lia. apply Z.div_mul.
      pose proof (pow2_pos (- e) ltac:(lia)). lia.
    + rewrite (Z.pow_neg_r 2 (a + e)) by lia. apply Z.div_small.
      split; [apply Z.lt_le_incl, pow2_pos; lia|].
      apply Z.pow_lt_mono_r; lia.
Qed.

Lemma int_true_divide_nonneg (n d : Z) : 0 < n -> 0 < d -> 0 <= int_true_divide n d.
Proof.
  intros Hn Hd. unfold int_true_divide. apply Z.shiftl_nonneg.
  pose proof (true_divide_significand n d Hn Hd). lia.
Qed.

Lemma int_true_divide_mono (n1 n2 d : Z) :
  0 < n1 -> n1 <= n2 -> 0 < d -> int_true_divide n1 d <= int_true_divide n2 d.
Proof.
  intros Hn1 Hle Hd. unfold int_true_divide.
  pose proof (true_divide_exponent_mono n1 n2 d Hn1 Hle Hd) as He.
  pose proof (true_divide_significand n1 d Hn1 Hd) as [_ Hk1].
  pose proof (true_divide_significand n2 d ltac:(lia) Hd) as [Hk2 _].
  destruct (decide ((true_divide n1 d).2 = (true_divide n2 d).2)) as [Heq|Hne].
  - apply Z.le_trans with (Z.shiftl (true_divide n2 d).1 (true_divide n1 d).2);
      [|by rewrite Heq].
    apply shiftl_mono.
    change (true_divide n1 d).1
      with (round_half_even (scaled n1 d (true_divide n1 d).2).1
                            (scaled n1 d (true_divide n1 d).2).2).
    change (true_divide n2 d).1
      with (round_half_even (scaled n2 d (true_divide n2 d).2).1
                            (scaled n2 d (true_divide n2 d).2).2).
    rewrite <- Heq, (scaled_den n2 n1).
    apply round_half_even_mono; [|by apply scaled_num_mono].
    by apply scaled_pos.
  - apply Z.le_trans with (Z.shiftl (2 ^ 53) (true_divide n1 d).2);
      [by apply shiftl_mono|].
    apply Z.le_trans with (Z.shiftl (2 ^ 52) (true_divide n2 d).2);
      [|by apply shiftl_mono].
    rewrite !shiftl_pow2 by lia. apply Z.pow_le_mono_r; lia.
Qed.

Lemma int_total_seconds_eq (td : Z) :
  int_total_seconds td = Z.sgn td * int_true_divide (Z.abs td) 1000000.
Proof. reflexivity. Qed.

Lemma int_total_seconds_nonneg (td : Z) : 0 <= td -> 0 <= int_total_seconds td.
Proof.
  intros Htd. rewrite int_total_seconds_eq.
  destruct (decide (td = 0)) as [->|Hne]; [done|].
  pose proof (int_true_divide_nonneg (Z.abs td) 1000000 ltac:(lia) ltac:(lia)).
  rewrite Z.sgn_pos by lia. lia.
Qed.

Lemma int_total_seconds_opp (td : Z) :
  int_total_seconds (- td) = - int_total_seconds td.
Proof. rewrite !int_total_seconds_eq, Z.sgn_opp, Z.abs_opp. ring. Qed.

Lemma int_total_seconds_le_mono (td1 td2 : Z) :
  td1 <= td2 -> int_total_seconds td1 <= int_total_seconds td2.
Proof.
  intros Hle.
  assert (Hpos : forall a b, 0 < a -> a <= b ->
                             int_total_seconds a <= int_total_seconds b).
  { intros a b Ha Hab. rewrite !int_total_seconds_eq, !Z.sgn_pos, !Z.abs_eq by lia.
    rewrite !Z.mul_1_l. apply int_true_divide_mono; lia. }
  destruct (Z.lt_trichotomy td1 0) as [H1|[->|H1]].
  - destruct (Z.lt_trichotomy td2 0) as [H2|[->|H2]].
    + pose proof (Hpos (- td2) (- td1) ltac:(lia) ltac:(lia)) as H.
      rewrite !int_total_seconds_opp in H. lia.
    + pose proof (int_total_seconds_nonneg (- td1) ltac:(lia)) as H.
      rewrite int_total_seconds_opp in H. change (int_total_seconds 0) with 0. lia.
    + pose proof (int_total_seconds_nonneg (- td1) ltac:(lia)) as H.
      rewrite int_total_seconds_opp in H.
      pose proof (int_total_seconds_nonneg td2 ltac:(lia)). lia.
  - by apply int_total_seconds_nonneg.
  - by apply Hpos.
Qed.

(** Below [2**34] seconds the doubles are less than a microsecond apart,
    and the whole part of the rounded quotient is that of the exact one. *)
Lemma int_true_divide_exact (n : Z) :
  0 < n < 2 ^ 34 * 1000000 -> int_true_divide n 1000000 = n / 1000000.
Proof.
  intros [Hn Hlt]. unfold int_true_divide.
  pose proof (true_divide_normal n 1000000 Hn ltac:(lia)) as [Hlo _].
  change (true_divide n 1000000).1
    with (round_half_even (scaled n 1000000 (true_divide n 1000000).2).1
                          (scaled n 1000000 (true_divide n 1000000).2).2).
  revert Hlo. generalize (true_divide n 1000000).2 as e. intros e Hlo.
  assert (e <= -19) as He.
  { destruct (Z.le_gt_cases e (-19)) as [|Hgt]; [done|exfalso].
    pose proof (scaled_shift n 1000000 (-18) e ltac:(lia)) as Hs.
    pose proof (scaled_pos n 1000000 e Hn ltac:(lia)) as [Hnum Hden].
    pose proof (pow2_pos (e - -18) ltac:(lia)) as Hp.
    change (scaled n 1000000 (-18)).1 with (n * 2 ^ 18) in Hs.
    change (scaled n 1000000 (-18)).2 with (1000000 * 2 ^ 0) in Hs.
    revert Hlo Hs Hnum Hden Hp. generalize (2 ^ (e - -18)) as p.
    generalize (scaled n 1000000 e).1 as a. generalize (scaled n 1000000 e).2 as b.
    intros b a p Hlo Hs Hnum Hden Hp.
    assert (a * 1000000 <= n * 2 ^ 18 * b) as H1 by nia.
    assert (n * 2 ^ 18 * b < 2 ^ 34 * 1000000 * 2 ^ 18 * b) as H2 by nia.
    change (2 ^ 34 * 1000000 * 2 ^ 18) with (2 ^ 52 * 1000000) in H2. nia. }
  rewrite Z.shiftl_div_pow2 by lia. cbn [scaled fst snd].
  rewrite (Z.max_l 0 e), (Z.max_r 0 (- e)), Z.pow_0_r, Z.mul_1_r by lia.
  assert (2 ^ 19 <= 2 ^ (- e)) as Hp by (apply Z.pow_le_mono_r; lia).
  revert Hp. generalize (2 ^ (- e)) as p. intros p Hp.
  change (2 ^ 19) with 524288 in Hp.
  pose proof (round_half_even_bounds (n * p) 1000000 ltac:(lia))
    as ([Hk _] & Hup & _).
  revert Hk Hup. generalize (round_half_even (n * p) 1000000) as k. intros k Hk Hup.
  pose proof (Z.div_mod n 1000000 ltac:(lia)) as Hdm.
  pose proof (Z.mod_pos_bound n 1000000 ltac:(lia)) as Hr.
  revert Hdm Hr. generalize (n / 1000000) as m. generalize (n mod 1000000) as r.
  intros r m Hdm Hr.
  assert (m * p <= n * p / 1000000) as Hfl.
  { apply Z.div_le_lower_bound; [lia|nia]. }
  symmetry. apply (Z.div_unique k p m (k - p * m)); [|lia].
  left. split; [nia|].
  assert (1000000 * k < 1000000 * (p * m + p)); [nia|lia].
Qed.

Lemma int_total_seconds_exact (td : Z) :
  Z.abs td < 2 ^ 34 * 1000000 -> int_total_seconds td = Z.quot td 1000000.
Proof.
  intros Hlt. rewrite int_total_seconds_eq, Z.quot_div by lia.
  destruct (decide (td = 0)) as [->|Hne]; [done|].
  rewrite int_true_divide_exact by lia.
  change (Z.sgn 1000000) with 1. change (Z.abs 1000000) with 1000000. ring.
Qed.

Lemma int_total_seconds_floor (td : Z) :
  0 <= td < 2 ^ 34 * 1000000 -> int_total_seconds td = td / 1000000.
Proof.
  intros Htd. rewrite int_total_seconds_exact, Z.quot_div_nonneg; lia.
Qed.

(** From [2**34] seconds upward the doubles are more than a microsecond
    apart: 586 years and .999999 seconds round up to the next second. *)
Lemma int_total_seconds_rounds :
  int_total_seconds 18513489600999999 = 18513489601
  /\ Z.quot 18513489600999999 1000000 = 18513489600.
Proof. split; reflexivity. Qed.

(** ** The run of [convert_gpx_to_rkjson] *)

Lemma result_bind_ok {A B : Type} (f : A -> result B) (a : A) :
  (Ok a ≫= f) = f a.
Proof. reflexivity. Qed.

Lemma result_bind_raise {A B : Type} (f : A -> result B) (e : exn) :
  (Raise e ≫= f) = Raise e.
Proof. reflexivity. Qed.

Lemma for_collect_cons {X Y : Type} (body : X -> result Y) (x : X) (xs : list X) :
  for_collect body (x :: xs)
  = (y ← body x; ys ← for_collect body xs; Ok (y :: ys)).
Proof. reflexivity. Qed.

Lemma for_fold_ext {X S : Type} (body body' : X -> S -> result S) (xs : list X) (s : S) :
  (forall x s, body x s = body' x s) ->
  for_fold body xs s = for_fold body' xs s.
Proof.
  intros Hb. revert s. induction xs as [|x xs IH]; intros s; [done|].
  cbn [for_fold]. rewrite Hb. destruct (body' x s); [|done].
  rewrite !result_bind_ok. apply IH.
Qed.

(** A loop that assigns to one key keeps the last assignment. *)
Lemma for_fold_setitem {X Y : Type} (key : string) (g : X -> result Y)
    (wrap : Y -> value) (xs : list X) (d : dict) :
  for_fold (fun x pp => y ← g x; Ok (<[key := wrap y]> pp)) xs d
  = (ys ← for_collect g xs; Ok (set_last key wrap ys d)).
Proof.
  revert d. induction xs as [|x xs IH]; intros d; [done|].
  cbn [for_fold]. rewrite for_collect_cons. destruct (g x) as [y|e]; [|done].
  rewrite !result_bind_ok, IH.
  destruct (for_collect g xs) as [ys|e]; [|done].
  rewrite !result_bind_ok. f_equal. unfold set_last.
  destruct ys as [|y' ys]; [done|].
  change (last (y :: y' :: ys)) with (last (y' :: ys)).
  destruct (last (y' :: ys)) eqn:El; [by rewrite insert_insert_eq|].
  by apply last_None in El.
Qed.

Lemma for_collect_Forall2 {X Y : Type} (g : X -> result Y) (xs : list X) (ys : list Y) :
  for_collect g xs = Ok ys <-> Forall2 (fun x y => g x = Ok y) xs ys.
Proof.
  revert ys. induction xs as [|x xs IH]; intros ys.
  - cbn. split.
    + intros [= <-]. constructor.
    + intros H. by inversion H.
  - rewrite for_collect_cons. split.
    + destruct (g x) as [y|e] eqn:Eg; [|done]. rewrite result_bind_ok.
      destruct (for_collect g xs) as [ys'|e]; [|done]. rewrite result_bind_ok.
      intros [= <-]. constructor; [done|]. by apply IH.
    + intros H. inversion H as [|? y ? ys' Hg Hrest]; subst.
      rewrite Hg, result_bind_ok. apply IH in Hrest. by rewrite Hrest.
Qed.

Lemma Forall2_last {X Y : Type} (R : X -> Y -> Prop) (xs : list X) (ys : list Y) :
  Forall2 R xs ys ->
  match last xs, last ys with
  | Some x, Some y => R x y
  | None, None => True
  | _, _ => False
  end.
Proof.
  induction 1 as [|x y xs ys HR Hrest IH]; [done|].
  destruct Hrest as [|x' y' xs' ys' HR' Hrest']; [done|].
  exact IH.
Qed.

Lemma as_dicts_VDict (pps : list dict) : as_dicts (VList (VDict <$> pps)) = Some pps.
Proof.
  cbn. induction pps as [|pp pps IH]; [done|]. cbn. cbn in IH. by rewrite IH.
Qed.

Lemma omap_cons_eq {A B : Type} (f : A -> option B) (x : A) (l : list A) :
  omap f (x :: l)
  = match f x with
    | Some y => y :: omap f l
    | None => omap f l
    end.
Proof. reflexivity. Qed.




Section ConversionRun.

Variable float_of_string : string -> option spec_float.
Variable parse : option string -> result datetime.
Variable strftime_local : datetime -> result string.

Local Abbreviation point_of := (path_point_of float_of_string parse).
Local Abbreviation rkjson :=
  (convert_gpx_to_rkjson float_of_string parse strftime_local).
Local Abbreviation record_of := (rkjson_record float_of_string parse strftime_local).

(** The point loop: every iteration appends its point and enriches the
    record; from the second iteration on the enrichment changes
    nothing.  An exception of a point ends the loop. *)
Lemma point_loop_run (jdata additional_data : loc) (start_time : option datetime)
    (points : list element) (h : heap) (jd ad : dict) (l : list value) :
  jdata ≠ additional_data ->
  h !! jdata = Some jd -> h !! additional_data = Some ad ->
  jd !! KEY_PATH = Some (VList l) ->
  exists jd',
    for_each (fun point =>
                path_point ← lift (point_of start_time point);
                _ ← list_append jdata KEY_PATH (VDict path_point);
                enrich_data jdata additional_data TYPE_RK) points h
    = (<[jdata := jd']> h,
       match for_collect (point_of start_time) points with
       | Ok _ => Ok tt
       | Raise e => Raise e
       end)
    /\ forall pps, for_collect (point_of start_time) points = Ok pps ->
         jd' = match points with
               | [] => jd
               | _ :: _ =>
                   <[KEY_PATH := VList (l ++ (VDict <$> pps))]> (jd ∪ ad ∪ DEFAULTS_RK)
               end.
Proof.
  intros Hne. revert h jd l.
  induction points as [|p points IH]; intros h jd l Hj Ha Hp.
  - exists jd. split; [|done]. cbn. unfold mret, M_ret. by rewrite insert_id.
  - cbn [for_each]. rewrite run_bind, run_bind. unfold lift at 1.
    rewrite for_collect_cons.
    destruct (point_of start_time p) as [pp|e] eqn:Epp.
    2:{ exists jd. rewrite result_bind_raise. split; [by rewrite insert_id|done]. }
    rewrite result_bind_ok, run_bind. unfold list_append at 1.
    rewrite run_bind. unfold dict_getitem at 1.
    rewrite (deref_lookup _ _ _ Hj), Hp. unfold dict_setitem at 1.
    rewrite (deref_lookup _ _ _ Hj).
    set (jd1 := <[KEY_PATH := VList (l ++ [VDict pp])]> jd).
    rewrite (enrich_data_runkeeper _ _ _ jd1 ad);
      [|by rewrite lookup_insert_eq|by rewrite lookup_insert_ne].
    rewrite insert_insert_eq.
    assert (Hjd2 : jd1 ∪ ad ∪ DEFAULTS_RK
                   = <[KEY_PATH := VList (l ++ [VDict pp])]> (jd ∪ ad ∪ DEFAULTS_RK)).
    { unfold jd1. by rewrite <- !insert_union_l. }
    destruct (IH (<[jdata := jd1 ∪ ad ∪ DEFAULTS_RK]> h) (jd1 ∪ ad ∪ DEFAULTS_RK)
                (l ++ [VDict pp])) as (jd' & Hrun & Hjd').
    { by rewrite lookup_insert_eq. }
    { by rewrite lookup_insert_ne. }
    { rewrite Hjd2. by rewrite lookup_insert_eq. }
    exists jd'. rewrite Hrun, insert_insert_eq. split.
    + by destruct (for_collect (point_of start_time) points).
    + intros pps Hpps.
      destruct (for_collect (point_of start_time) points) as [pps'|] eqn:Ec;
        [|done].
      rewrite result_bind_ok in Hpps. injection Hpps as <-.
      rewrite (Hjd' pps' eq_refl). destruct points as [|p' points'].
      * cbn in Ec. injection Ec as <-. by rewrite Hjd2.
      * rewrite enrich_absorb, Hjd2, insert_insert_eq.
        by rewrite <- app_assoc.
Qed.

(** The run of the conversion against its reading as a function: the
    result is a new reference, the heap is extended at that reference
    only, and the record there is [rkjson_record]. *)
Lemma convert_gpx_to_rkjson_run (data : element) (additional_data : loc)
    (h : heap) (ad : dict) :
  h !! additional_data = Some ad ->
  exists jd',
    rkjson data additional_data h
    = (<[fresh (dom h) := jd']> h,
       match record_of data ad with
       | Ok _ => Ok (fresh (dom h))
       | Raise e => Raise e
       end)
    /\ forall r, record_of data ad = Ok r -> jd' = r.
Proof.
  intros Ha. set (j := fresh (dom h)).
  assert (Hfresh : h !! j = None).
  { apply not_elem_of_dom. apply is_fresh. }
  assert (Hne : j ≠ additional_data) by congruence.
  unfold convert_gpx_to_rkjson, rkjson_record.
  rewrite run_bind. unfold new_dict at 1. fold j.
  rewrite run_bind. unfold dict_setitem at 1. rewrite deref_insert, insert_insert_eq.
  rewrite run_bind. unfold lift at 1.
  change (match xpath data [ns "metadata"; ns "time"] with
          | [] => _
          | e :: _ => _
          end) with (resolve_start_time parse data).
  destruct (resolve_start_time parse data) as [start_time|e].
  2:{ eexists. rewrite result_bind_raise. split; [reflexivity|done]. }
  rewrite result_bind_ok, run_bind. unfold lift at 1.
  destruct (astimezone_strftime strftime_local start_time) as [s|e].
  2:{ eexists. rewrite result_bind_raise. split; [reflexivity|done]. }
  rewrite result_bind_ok, run_bind. unfold dict_setitem at 1.
  rewrite deref_insert, insert_insert_eq, run_bind.
  fold (initial_record s).
  destruct (point_loop_run j additional_data start_time (track_points data)
              (<[j := initial_record s]> h) (initial_record s) ad [])
    as (jd' & Hrun & Hjd'); [done| | |done|].
  { by rewrite lookup_insert_eq. }
  { by rewrite lookup_insert_ne. }
  change (xpath data [ns "trk"; ns "trkseg"; ns "trkpt"]) with (track_points data).
  rewrite Hrun, insert_insert_eq. exists jd'.
  destruct (for_collect (point_of start_time) (track_points data)) as [pps|e].
  2:{ rewrite result_bind_raise. split; [reflexivity|done]. }
  rewrite result_bind_ok. unfold mret, M_ret. split; [reflexivity|].
  intros r Hr. injection Hr as <-. rewrite (Hjd' pps eq_refl).
  unfold final_record. by destruct (track_points data).
Qed.

(** [path_point_of] with its two inner loops in closed form. *)
Lemma path_point_of_eq (start_time : option datetime) (point : element) :
  point_of start_time point
  = (lat ← py_float float_of_string (get point "lat");
     lon ← py_float float_of_string (get point "lon");
     alts ← for_collect (fun e => py_float float_of_string (text e))
                        (iter point (ns "ele"));
     tds ← for_collect (elapsed_of parse start_time) (iter point (ns "time"));
     Ok (set_last KEY_TIMESTAMP (fun td => VInt (int_total_seconds td)) tds
           (set_last KEY_ALT VFloat alts
              (<[KEY_TYPE := VStr "gps"]>
                 (<[KEY_LON := VFloat lon]> (<[KEY_LAT := VFloat lat]> ∅)))))).
Proof.
  unfold path_point_of.
  destruct (py_float float_of_string (get point "lat")) as [lat|e]; [|done].
  rewrite !result_bind_ok.
  destruct (py_float float_of_string (get point "lon")) as [lon|e]; [|done].
  rewrite !result_bind_ok.
  rewrite (for_fold_setitem KEY_ALT (fun e => py_float float_of_string (text e)) VFloat).
  change (clark NAMESPACE_ns "ele") with (ns "ele").
  destruct (for_collect _ (iter point (ns "ele"))) as [alts|e]; [|done].
  rewrite !result_bind_ok.
  rewrite <- (for_fold_setitem KEY_TIMESTAMP (elapsed_of parse start_time)
                (fun td => VInt (int_total_seconds td))).
  apply for_fold_ext. intros e pp. unfold elapsed_of.
  by destruct (parse (text e)).
Qed.

(** Success of the conversion, read off [rkjson_record]. *)
Lemma rkjson_record_ok (data : element) (ad r : dict) :
  record_of data ad = Ok r <->
  exists e0 start s pps,
    head (metadata_times data ++ all_times data) = Some e0
    /\ parse (text e0) = Ok start
    /\ is_Some (utcoffset start)
    /\ strftime_local start = Ok s
    /\ for_collect (point_of (Some start)) (track_points data) = Ok pps
    /\ r = final_record (track_points data) pps (initial_record s) ad.
Proof.
  unfold rkjson_record, resolve_start_time. split.
  - intros Hr.
    assert (Hst : exists e0 start,
               head (metadata_times data ++ all_times data) = Some e0
               /\ parse (text e0) = Ok start
               /\ (s ← astimezone_strftime strftime_local (Some start);
                   pps ← for_collect (point_of (Some start)) (track_points data);
                   Ok (final_record (track_points data) pps (initial_record s) ad))
                  = Ok r).
    { destruct (metadata_times data) as [|e0 ?].
      - destruct (all_times data) as [|e0 ?]; [done|].
        destruct (parse (text e0)) as [start|] eqn:Ep; [|done]. by exists e0, start.
      - destruct (parse (text e0)) as [start|] eqn:Ep; [|done]. by exists e0, start. }
    destruct Hst as (e0 & start & Hh & Hp & Hrest). exists e0, start.
    unfold astimezone_strftime in Hrest.
    destruct (utcoffset start) as [o|] eqn:Eo; [|done].
    destruct (strftime_local start) as [s|] eqn:Es; [|done].
    rewrite result_bind_ok in Hrest.
    destruct (for_collect _ (track_points data)) as [pps|]; [|done].
    injection Hrest as <-. exists s, pps. repeat split; eauto.
  - intros (e0 & start & s & pps & Hh & Hp & [o Ho] & Hs & Hc & ->).
    assert (Hst : match metadata_times data with
                  | [] => match all_times data with
                          | [] => Ok None
                          | e :: _ => st ← parse (text e); Ok (Some st)
                          end
                  | e :: _ => st ← parse (text e); Ok (Some st)
                  end = Ok (Some start)).
    { destruct (metadata_times data) as [|e ?].
      - destruct (all_times data) as [|e ?]; [done|].
        injection Hh as ->. by rewrite Hp.
      - injection Hh as ->. by rewrite Hp. }
    rewrite Hst, result_bind_ok. unfold astimezone_strftime.
    by rewrite Ho, Hs, result_bind_ok, Hc.
Qed.

(** What a caller reads from the returned record. *)
Lemma returned_rkjson {A : Type} (data : element) (additional_data : loc)
    (h : heap) (ad : dict) (f : dict -> option A) :
  h !! additional_data = Some ad ->
  returned (rkjson data additional_data h) f
  = match record_of data ad with
    | Ok r => f r
    | Raise _ => None
    end.
Proof.
  intros Ha.
  destruct (convert_gpx_to_rkjson_run data additional_data h ad Ha)
    as (jd' & -> & Hjd').
  destruct (record_of data ad) as [r|e]; [|done].
  cbn. by rewrite lookup_insert_eq, (Hjd' r eq_refl).
Qed.

Lemma path_of_final_record (points : list element) (pps : list dict)
    (s : string) (ad : dict) (start_time : option datetime) :
  for_collect (point_of start_time) points = Ok pps ->
  path_of (final_record points pps (initial_record s) ad) = Some pps.
Proof.
  intros Hc. unfold path_of, final_record. destruct points as [|p points].
  - injection Hc as <-. unfold initial_record.
    rewrite lookup_insert_ne by done. by rewrite lookup_insert_eq.
  - rewrite lookup_insert_eq. apply as_dicts_VDict.
Qed.

End ConversionRun.

(** * The claims of the specification *)

(** ** Enrichment *)

(** C4, as stated, fails for the format type ['geojson']: [DEFAULT_DATA]
    has no entry for it, so [enrich_data] raises [KeyError] after the
    override loop and sets no default key. *)
Lemma enrich_data_geojson_raises :
  let h : heap := {[ 1%positive := ∅; 2%positive := ∅ ]} in
  (enrich_data 2%positive 1%positive TYPE_GEOJSON h).2 = Raise KeyError
  /\ deref (enrich_data 2%positive 1%positive TYPE_GEOJSON h).1 2%positive !! KEY_TYPE
     = None.
Proof. split; reflexivity. Qed.

(** C4 (amended): for every record, every override mapping and the format
    type ['runkeeper'], [enrich_data] returns normally and leaves in the
    record, under every key, the value the record had, else the value the
    overrides have, else the built-in default (type 'Running', equipment
    'None', notes '', post_to_facebook false, post_to_twitter false), and
    no other key; a key already present keeps its value. *)
Theorem enrich_data_two_tier_fill (jdata additional_data : loc) (h : heap)
    (jd ad : dict) :
  h !! jdata = Some jd -> h !! additional_data = Some ad ->
  exists jd',
    enrich_data jdata additional_data TYPE_RK h = (<[jdata := jd']> h, Ok tt)
    /\ (forall key,
          jd' !! key
          = match jd !! key with
            | Some v => Some v
            | None =>
                match ad !! key with
                | Some v => Some v
                | None =>
                    ({[ KEY_TYPE := VStr "Running";
                        KEY_EQUIPMENT := VStr "None";
                        KEY_NOTES := VStr "";
                        KEY_FB := VBool false;
                        KEY_TWIT := VBool false ]} : dict) !! key
                end
            end)
    /\ (forall key v, jd !! key = Some v -> jd' !! key = Some v).
Proof.
  intros Hj Ha. exists (jd ∪ ad ∪ DEFAULTS_RK).
  split; [by apply enrich_data_runkeeper|].
  assert (Hl : forall key,
             (jd ∪ ad ∪ DEFAULTS_RK) !! key
             = match jd !! key with
               | Some v => Some v
               | None =>
                   match ad !! key with
                   | Some v => Some v
                   | None => DEFAULTS_RK !! key
                   end
               end).
  { intros key. rewrite !lookup_union.
    by destruct (jd !! key), (ad !! key), (DEFAULTS_RK !! key). }
  split.
  - exact Hl.
  - intros key v Hv. by rewrite Hl, Hv.
Qed.

Lemma enrich_data_two_tier_fill_witness :
  let h : heap :=
    {[ 1%positive := {[ KEY_TYPE := VStr "Cycling"; KEY_NOTES := VStr "windy" ]};
       2%positive := {[ KEY_NOTES := VStr "kept" ]} ]} in
  exists jd',
    enrich_data 2%positive 1%positive TYPE_RK h = (<[2%positive := jd']> h, Ok tt)
    /\ jd' !! KEY_NOTES = Some (VStr "kept")
    /\ jd' !! KEY_TYPE = Some (VStr "Cycling")
    /\ jd' !! KEY_EQUIPMENT = Some (VStr "None").
Proof.
  intros h.
  assert (Hj : h !! 2%positive = Some ({[ KEY_NOTES := VStr "kept" ]} : dict))
    by (reflexivity).
  assert (Ha : h !! 1%positive
               = Some ({[ KEY_TYPE := VStr "Cycling"; KEY_NOTES := VStr "windy" ]} : dict))
    by (reflexivity).
  destruct (enrich_data_two_tier_fill 2%positive 1%positive h _ _ Hj Ha)
    as (jd' & Hrun & Hfill & _).
  exists jd'. split; [exact Hrun|]. rewrite !Hfill.
  repeat split; reflexivity.
Defined.

(** C8, at a document without track points: the loop body never runs, so
    the record [convert_gpx_to_rkjson] returns carries no enrichment,
    while enriching once after the loop fills in the five defaults.  (For
    the idempotence the claim starts from, see [enrich_data_idempotent].) *)
Theorem enrichment_skipped_without_points :
  returned (sample_rkjson gpx_no_points ∅) Some
  = Some {[ KEY_PATH := VList [];
            KEY_STARTTIME := VStr "Wed, 01 May 2013 12:00:00" ]}
  /\ returned (sample_rkjson_enrich_once gpx_no_points ∅) Some
     = Some {[ KEY_PATH := VList [];
               KEY_STARTTIME := VStr "Wed, 01 May 2013 12:00:00";
               KEY_TYPE := VStr "Running";
               KEY_EQUIPMENT := VStr "None";
               KEY_NOTES := VStr "";
               KEY_FB := VBool false;
               KEY_TWIT := VBool false ]}.
Proof. split; reflexivity. Qed.

(** ** The conversions *)

Section Claims.

Variable float_of_string : string -> option spec_float.
Variable parse : option string -> result datetime.
Variable strftime_local : datetime -> result string.

Local Abbreviation point_of := (path_point_of float_of_string parse).
Local Abbreviation rkjson := (convert_gpx_to_rkjson float_of_string parse strftime_local).
Local Abbreviation geojson := (convert_gpx_to_geojson float_of_string parse strftime_local).
Local Abbreviation record_of := (rkjson_record float_of_string parse strftime_local).

(** The keys set before the point loop survive it. *)
Lemma final_record_initial (points : list element) (pps : list dict) (s : string)
    (ad : dict) (key : string) (v : value) :
  key ≠ KEY_PATH -> initial_record s !! key = Some v ->
  final_record points pps (initial_record s) ad !! key = Some v.
Proof.
  intros Hne Hv. unfold final_record. destruct points; [done|].
  rewrite lookup_insert_ne by done. rewrite !lookup_union, Hv.
  by destruct (ad !! key), (DEFAULTS_RK !! key).
Qed.

(** C10: [convert_gpx_to_rkjson] leaves the caller's [additional_data]
    dict as it found it, whether it returns or raises; [enrich_data] reads
    the dict and writes to the record only. *)
Theorem additional_data_unchanged (data : element) (additional_data : loc)
    (h : heap) (ad : dict) :
  h !! additional_data = Some ad ->
  (rkjson data additional_data h).1 !! additional_data = Some ad
  /\ (forall jdata data_type h0 jd,
        jdata ≠ additional_data ->
        h0 !! jdata = Some jd -> h0 !! additional_data = Some ad ->
        (enrich_data jdata additional_data data_type h0).1 !! additional_data
        = Some ad).
Proof.
  intros Ha. split.
  - destruct (convert_gpx_to_rkjson_run float_of_string parse strftime_local
                data additional_data h ad Ha) as (jd' & -> & _).
    cbn [fst]. rewrite lookup_insert_ne; [done|].
    intros Heq. assert (Hf : h !! fresh (dom h) = None).
    { apply not_elem_of_dom, is_fresh. }
    rewrite Heq in Hf. congruence.
  - intros jdata data_type h0 jd Hne Hj Ha0.
    rewrite (enrich_data_run _ _ _ _ _ _ Hj Ha0).
    destruct (DEFAULT_DATA !! data_type); cbn [fst];
      by rewrite lookup_insert_ne.
Qed.

(** ** GeoJSON *)

(** Success of [convert_gpx_to_geojson], step by step. *)
Lemma convert_gpx_to_geojson_ok (data : element) (additional_data : loc) (jd : dict) :
  geojson data additional_data = Ok jd ->
  exists name_el time_el start s coords,
    head (track_names data) = Some name_el
    /\ head (metadata_times data) = Some time_el
    /\ parse (text time_el) = Ok start
    /\ strftime_local start = Ok s
    /\ for_collect (fun point =>
                      lon ← py_float float_of_string (get point "lon");
                      lat ← py_float float_of_string (get point "lat");
                      Ok (VList [VFloat lon; VFloat lat]))
                   (track_points data) = Ok coords
    /\ jd = geojson_record (text_value (text name_el)) s coords.
Proof.
  unfold convert_gpx_to_geojson.
  change (xpath data [ns "trk"; ns "name"]) with (track_names data).
  change (xpath data [ns "metadata"; ns "time"]) with (metadata_times data).
  change (xpath data [ns "trk"; ns "trkseg"; ns "trkpt"]) with (track_points data).
  destruct (track_names data) as [|name_el ?]; [done|].
  destruct (metadata_times data) as [|time_el ?]; [done|].
  cbn [index0]. rewrite !result_bind_ok.
  destruct (parse (text time_el)) as [start|] eqn:Ep; [|done].
  rewrite result_bind_ok.
  unfold astimezone_strftime. destruct (utcoffset start); [|done].
  destruct (strftime_local start) as [s|] eqn:Es; [|done]. rewrite result_bind_ok.
  destruct (for_collect _ (track_points data)) as [coords|] eqn:Ec; [|done].
  rewrite result_bind_ok. intros [= <-].
  exists name_el, time_el, start, s, coords. repeat split; try done.
Qed.

(** Without a name in the track, or without a time in the metadata, the
    subscript [[0]] raises [IndexError]. *)
Lemma convert_gpx_to_geojson_index_error (data : element) (additional_data : loc) :
  track_names data = [] \/ metadata_times data = [] ->
  geojson data additional_data = Raise IndexError.
Proof.
  unfold convert_gpx_to_geojson.
  change (xpath data [ns "trk"; ns "name"]) with (track_names data).
  change (xpath data [ns "metadata"; ns "time"]) with (metadata_times data).
  intros [-> | ->]; [done|]. by destruct (track_names data).
Qed.

Lemma properties_of_geojson_record (name : value) (s : string) (coords : list value) :
  properties_of (geojson_record name s coords)
  = Some {[ KEY_NAME := name; KEY_TIME := VStr s ]}.
Proof. reflexivity. Qed.

Lemma coordinates_of_geojson_record (name : value) (s : string) (coords : list value) :
  coordinates_of (geojson_record name s coords) = Some coords.
Proof. reflexivity. Qed.



(** ** The start time *)


(** ** Elapsed seconds *)

Lemma datetime_sub_instant (ts start : datetime) (td : Z) :
  datetime_sub ts (Some start) = Ok td -> td = instant ts - instant start.
Proof.
  unfold datetime_sub, instant.
  destruct (utcoffset ts), (utcoffset start); intros [= <-]; cbn; lia.
Qed.

(** The timestamp of one path point. *)
Lemma path_point_timestamp (start : datetime) (point : element) (pp : dict) :
  point_of (Some start) point = Ok pp ->
  match time_element point with
  | None => pp !! KEY_TIMESTAMP = None
  | Some e =>
      exists ts td,
        parse (text e) = Ok ts
        /\ datetime_sub ts (Some start) = Ok td
        /\ pp !! KEY_TIMESTAMP = Some (VInt (int_total_seconds td))
  end.
Proof.
  rewrite path_point_of_eq.
  destruct (py_float float_of_string (get point "lat")) as [lat|]; [|done].
  destruct (py_float float_of_string (get point "lon")) as [lon|]; [|done].
  rewrite !result_bind_ok.
  destruct (for_collect _ (iter point (ns "ele"))) as [alts|]; [|done].
  rewrite result_bind_ok.
  destruct (for_collect _ (iter point (ns "time"))) as [tds|] eqn:Et; [|done].
  rewrite result_bind_ok. intros [= <-].
  apply for_collect_Forall2, Forall2_last in Et. unfold time_element, set_last.
  destruct (last (iter point (ns "time"))) as [e|], (last tds) as [td|];
    try done.
  - unfold elapsed_of in Et. destruct (parse (text e)) as [ts|]; [|done].
    rewrite result_bind_ok in Et. exists ts, td.
    split; [done|]. split; [done|]. apply lookup_insert_eq.
  - by destruct (last alts).
Qed.

Lemma path_point_timestamp_instant (start : datetime) (point : element) (pp : dict) :
  point_of (Some start) point = Ok pp ->
  timestamp_of pp
  = (fun t => int_total_seconds (t - instant start)) <$> point_instant parse point.
Proof.
  intros Hpp. apply path_point_timestamp in Hpp. unfold timestamp_of, point_instant.
  destruct (time_element point) as [e|]; cbn.
  - destruct Hpp as (ts & td & -> & Hsub & ->). cbn.
    by rewrite (datetime_sub_instant _ _ _ Hsub).
  - by rewrite Hpp.
Qed.

Lemma timestamps_of_path (start : datetime) (points : list element) (path : list dict) :
  for_collect (point_of (Some start)) points = Ok path ->
  omap timestamp_of path
  = (fun t => int_total_seconds (t - instant start)) <$> omap (point_instant parse) points.
Proof.
  intros Hc. apply for_collect_Forall2 in Hc.
  induction Hc as [|point pp points path Hpp _ IH]; [done|].
  rewrite !omap_cons_eq, (path_point_timestamp_instant _ _ _ Hpp), IH.
  by destruct (point_instant parse point).
Qed.

(** The path a returned record holds, point by point. *)
Lemma returned_path (data : element) (additional_data : loc) (h : heap)
    (ad : dict) (path : list dict) :
  h !! additional_data = Some ad ->
  returned (rkjson data additional_data h) path_of = Some path ->
  exists e0 start,
    head (metadata_times data ++ all_times data) = Some e0
    /\ parse (text e0) = Ok start
    /\ for_collect (point_of (Some start)) (track_points data) = Ok path.
Proof.
  intros Ha. rewrite (returned_rkjson _ _ _ _ _ _ ad _ Ha).
  destruct (record_of data ad) as [r|] eqn:Er; [|done].
  apply rkjson_record_ok in Er
    as (e0 & start & s & pps & Hh & Hp & _ & _ & Hc & ->).
  rewrite (path_of_final_record float_of_string parse _ _ _ _ _ Hc).
  intros [= <-]. by exists e0, start.
Qed.

(** C2 (amended): in a record [convert_gpx_to_rkjson] returns, the path
    point of a track point that contains a time element (as a child or
    deeper; the last one in document order counts) has under
    ['timestamp'] the value [int(td.total_seconds())] for the difference
    [td] between that time and the resolved start time: the seconds as
    the nearest double, truncated toward zero.  When the two times are
    less than [2**34] seconds (some 544 years) apart, this is the exact
    number of seconds truncated toward zero, which is their floor when
    the point is not earlier than the start.  The path point of a track
    point that contains no time element has no ['timestamp'] key. *)
Theorem elapsed_seconds_of_points (data : element) (additional_data : loc)
    (h : heap) (ad : dict) (path : list dict) :
  h !! additional_data = Some ad ->
  returned (rkjson data additional_data h) path_of = Some path ->
  exists e0 start,
    head (metadata_times data ++ all_times data) = Some e0
    /\ parse (text e0) = Ok start
    /\ Forall2 (fun point pp =>
                  match time_element point with
                  | None => pp !! KEY_TIMESTAMP = None
                  | Some e =>
                      exists ts td,
                        parse (text e) = Ok ts
                        /\ datetime_sub ts (Some start) = Ok td
                        /\ pp !! KEY_TIMESTAMP = Some (VInt (int_total_seconds td))
                        /\ (Z.abs td < 2 ^ 34 * 1000000 ->
                            pp !! KEY_TIMESTAMP = Some (VInt (Z.quot td 1000000)))
                        /\ (0 <= td < 2 ^ 34 * 1000000 ->
                            pp !! KEY_TIMESTAMP = Some (VInt (td / 1000000)))
                  end) (track_points data) path.
Proof.
  intros Ha Hret.
  destruct (returned_path _ _ _ _ _ Ha Hret) as (e0 & start & Hh & Hp & Hc).
  exists e0, start. split; [done|]. split; [done|].
  apply for_collect_Forall2 in Hc. eapply Forall2_impl; [exact Hc|].
  intros point pp Hpp. cbn beta in Hpp. apply path_point_timestamp in Hpp.
  destruct (time_element point) as [e|]; [|done].
  destruct Hpp as (ts & td & Hts & Htd & Hl). exists ts, td.
  split; [done|]. split; [done|]. split; [done|]. split.
  - intros Hlt. by rewrite Hl, int_total_seconds_exact.
  - intros Hlt. by rewrite Hl, int_total_seconds_floor.
Qed.

(** C7 (amended): in a record [convert_gpx_to_rkjson] returns for a
    document whose track point times do not decrease in document order,
    the ['timestamp'] values do not decrease along the path; they are
    non-negative when, in addition, the resolved start time is not later
    than the first track point time. *)
Theorem elapsed_seconds_monotone (data : element) (additional_data : loc)
    (h : heap) (ad : dict) (path : list dict) (e0 : element) (start : datetime) :
  h !! additional_data = Some ad ->
  returned (rkjson data additional_data h) path_of = Some path ->
  head (metadata_times data ++ all_times data) = Some e0 ->
  parse (text e0) = Ok start ->
  Sorted Z.le (omap (point_instant parse) (track_points data)) ->
  Sorted Z.le (omap timestamp_of path)
  /\ ((forall t, head (omap (point_instant parse) (track_points data)) = Some t ->
                 instant start <= t) ->
      Forall (fun n => 0 <= n) (omap timestamp_of path)).
Proof.
  intros Ha Hret Hh Hp Hsorted.
  destruct (returned_path _ _ _ _ _ Ha Hret) as (e0' & start' & Hh' & Hp' & Hc).
  assert (e0' = e0) as -> by congruence.
  assert (start' = start) as -> by congruence.
  rewrite (timestamps_of_path _ _ _ Hc). split.
  - eapply Sorted_fmap; [|exact Hsorted].
    intros x y Hxy. apply int_total_seconds_le_mono; lia.
  - intros Hfirst. apply Forall_fmap.
    apply (Sorted_StronglySorted Z.le) in Hsorted.
    destruct (omap (point_instant parse) (track_points data)) as [|t ts]; [done|].
    apply StronglySorted_inv in Hsorted as [_ Hall].
    specialize (Hfirst t eq_refl). constructor.
    + cbn. apply int_total_seconds_nonneg; lia.
    + eapply Forall_impl; [exact Hall|]. intros t' Hle. cbn.
      apply int_total_seconds_nonneg; lia.
Qed.

(** ** Enrichment of the returned record *)

Lemma DEFAULTS_RK_keys (key : string) (v : value) :
  DEFAULTS_RK !! key = Some v -> key ≠ KEY_PATH /\ key ≠ KEY_STARTTIME.
Proof. intros Hv. split; intros ->; by vm_compute in Hv. Qed.

(** C5 (amended): the record [convert_gpx_to_rkjson] returns for a
    document with at least one track point holds every caller-supplied
    override whose key is neither ['path'] nor ['start_time'], unmodified,
    and holds all five default keys, each with the override for the key
    when there is one and with the built-in default otherwise. *)
Theorem enrichment_of_returned_record (data : element) (additional_data : loc)
    (h : heap) (ad jd : dict) :
  h !! additional_data = Some ad ->
  track_points data ≠ [] ->
  returned (rkjson data additional_data h) Some = Some jd ->
  (forall key v,
     ad !! key = Some v -> key ≠ KEY_PATH -> key ≠ KEY_STARTTIME ->
     jd !! key = Some v)
  /\ (forall key v,
        DEFAULTS_RK !! key = Some v -> jd !! key = Some (default v (ad !! key))).
Proof.
  intros Ha Hpoints. rewrite (returned_rkjson _ _ _ _ _ _ ad _ Ha).
  destruct (record_of data ad) as [r|] eqn:Er; [|done]. intros [= <-].
  apply rkjson_record_ok in Er as (e0 & start & s & pps & _ & _ & _ & _ & _ & ->).
  assert (Hl : forall key,
             key ≠ KEY_PATH -> key ≠ KEY_STARTTIME ->
             final_record (track_points data) pps (initial_record s) ad !! key
             = match ad !! key with
               | Some v => Some v
               | None => DEFAULTS_RK !! key
               end).
  { intros key Hp Hs. unfold final_record.
    destruct (track_points data); [done|].
    rewrite lookup_insert_ne by done. rewrite !lookup_union. unfold initial_record.
    rewrite !lookup_insert_ne by done. rewrite lookup_empty.
    by destruct (ad !! key), (DEFAULTS_RK !! key). }
  split.
  - intros key v Hv Hp Hs. by rewrite Hl, Hv.
  - intros key v Hv. destruct (DEFAULTS_RK_keys _ _ Hv) as [Hp Hs].
    rewrite Hl, Hv by done. by destruct (ad !! key).
Qed.

(** ** The track name *)

Lemma for_collect_total {X Y : Type} (g : X -> result Y) (xs : list X) :
  Forall (fun x => exists y, g x = Ok y) xs -> exists ys, for_collect g xs = Ok ys.
Proof.
  induction 1 as [|x xs [y Hy] _ [ys Hys]]; [by exists []|].
  exists (y :: ys). by rewrite for_collect_cons, Hy, result_bind_ok, Hys.
Qed.

(** C6 (amended): on every document without a name element in a track,
    [convert_gpx_to_geojson] raises the built-in [IndexError], and
    [convert_gpx_to_rkjson], which does not read the name, returns a record
    whenever the start time resolves to an aware datetime that formats and
    every track point converts. *)
Theorem missing_track_name (data : element) (additional_data : loc) :
  track_names data = [] ->
  geojson data additional_data = Raise IndexError
  /\ (forall h ad e0 start s,
        h !! additional_data = Some ad ->
        head (metadata_times data ++ all_times data) = Some e0 ->
        parse (text e0) = Ok start ->
        is_Some (utcoffset start) ->
        strftime_local start = Ok s ->
        Forall (fun point => exists pp, point_of (Some start) point = Ok pp)
               (track_points data) ->
        exists jdata, (rkjson data additional_data h).2 = Ok jdata).
Proof.
  intros Hnone. split.
  - apply convert_gpx_to_geojson_index_error. by left.
  - intros h ad e0 start s Ha Hh Hp Ho Hs Hpoints.
    apply for_collect_total in Hpoints as [pps Hpps].
    destruct (convert_gpx_to_rkjson_run float_of_string parse strftime_local
                data additional_data h ad Ha) as (jd' & -> & _).
    assert (Hr : record_of data ad
                 = Ok (final_record (track_points data) pps (initial_record s) ad)).
    { apply rkjson_record_ok. by exists e0, start, s, pps. }
    rewrite Hr. by eexists.
Qed.

(** ** The round-trip scenario *)

Lemma py_float_some (x : string) (f : spec_float) :
  float_of_string x = Some f -> py_float float_of_string (Some x) = Ok f.
Proof. intros Hx. unfold py_float. by rewrite Hx. Qed.

(** C9: for the document with metadata time [t0] and the two track points
    (45.0, -122.0, elevation 10, time [t0]) and (45.001, -122.001,
    elevation 12, time [t1]), where [t1] is thirty seconds after [t0], the
    path of the returned record is the two points, in this order, with
    the floats of the six numerals, timestamps 0 and 30 and type
    ['gps']. *)
Theorem round_trip_path (t0 t1 : string) (start second : datetime) (s : string)
    (lat1 lon1 alt1 lat2 lon2 alt2 : spec_float)
    (additional_data : loc) (h : heap) (ad : dict) :
  parse (Some t0) = Ok start ->
  parse (Some t1) = Ok second ->
  is_Some (utcoffset start) ->
  datetime_sub second (Some start) = Ok 30000000 ->
  strftime_local start = Ok s ->
  float_of_string "45.0" = Some lat1 ->
  float_of_string "-122.0" = Some lon1 ->
  float_of_string "10" = Some alt1 ->
  float_of_string "45.001" = Some lat2 ->
  float_of_string "-122.001" = Some lon2 ->
  float_of_string "12" = Some alt2 ->
  h !! additional_data = Some ad ->
  returned (rkjson (round_trip_gpx t0 t1) additional_data h) path_of
  = Some [ {[ KEY_LAT := VFloat lat1; KEY_LON := VFloat lon1;
              KEY_ALT := VFloat alt1; KEY_TIMESTAMP := VInt 0;
              KEY_TYPE := VStr "gps" ]};
           {[ KEY_LAT := VFloat lat2; KEY_LON := VFloat lon2;
              KEY_ALT := VFloat alt2; KEY_TIMESTAMP := VInt 30;
              KEY_TYPE := VStr "gps" ]} ].
Proof.
  intros Ht0 Ht1 Haware Hdiff Hs Hlat1 Hlon1 Halt1 Hlat2 Hlon2 Halt2 Ha.
  assert (Hzero : datetime_sub start (Some start) = Ok 0).
  { destruct Haware as [o Ho]. unfold datetime_sub. rewrite Ho.
    by rewrite Z.sub_diag. }
  set (pp1 := ({[ KEY_LAT := VFloat lat1; KEY_LON := VFloat lon1;
                  KEY_ALT := VFloat alt1; KEY_TIMESTAMP := VInt 0;
                  KEY_TYPE := VStr "gps" ]} : dict)).
  set (pp2 := ({[ KEY_LAT := VFloat lat2; KEY_LON := VFloat lon2;
                  KEY_ALT := VFloat alt2; KEY_TIMESTAMP := VInt 30;
                  KEY_TYPE := VStr "gps" ]} : dict)).
  assert (Hp1 : point_of (Some start)
                  (trkpt "45.0" "-122.0" [gpx_text "ele" "10"; gpx_text "time" t0])
                = Ok pp1).
  { rewrite path_point_of_eq.
    change (get _ "lat") with (Some "45.0"). change (get _ "lon") with (Some "-122.0").
    rewrite (py_float_some _ _ Hlat1), (py_float_some _ _ Hlon1), !result_bind_ok.
    change (iter _ (ns "ele")) with [gpx_text "ele" "10"].
    change (iter _ (ns "time")) with [gpx_text "time" t0].
    rewrite !for_collect_cons. cbn [for_collect]. unfold elapsed_of.
    change (text (gpx_text "ele" "10")) with (Some "10").
    change (text (gpx_text "time" t0)) with (Some t0).
    rewrite (py_float_some _ _ Halt1), Ht0, !result_bind_ok, Hzero, !result_bind_ok.
    reflexivity. }
  assert (Hp2 : point_of (Some start)
                  (trkpt "45.001" "-122.001" [gpx_text "ele" "12"; gpx_text "time" t1])
                = Ok pp2).
  { rewrite path_point_of_eq.
    change (get _ "lat") with (Some "45.001").
    change (get _ "lon") with (Some "-122.001").
    rewrite (py_float_some _ _ Hlat2), (py_float_some _ _ Hlon2), !result_bind_ok.
    change (iter _ (ns "ele")) with [gpx_text "ele" "12"].
    change (iter _ (ns "time")) with [gpx_text "time" t1].
    rewrite !for_collect_cons. cbn [for_collect]. unfold elapsed_of.
    change (text (gpx_text "ele" "12")) with (Some "12").
    change (text (gpx_text "time" t1)) with (Some t1).
    rewrite (py_float_some _ _ Halt2), Ht1, !result_bind_ok, Hdiff, !result_bind_ok.
    reflexivity. }
  rewrite (returned_rkjson _ _ _ _ _ _ ad _ Ha).
  assert (Hr : record_of (round_trip_gpx t0 t1) ad
               = Ok (final_record (track_points (round_trip_gpx t0 t1)) [pp1; pp2]
                       (initial_record s) ad)).
  { apply rkjson_record_ok. exists (gpx_text "time" t0), start, s, [pp1; pp2].
    repeat split; try done.
    change (track_points (round_trip_gpx t0 t1))
      with [trkpt "45.0" "-122.0" [gpx_text "ele" "10"; gpx_text "time" t0];
            trkpt "45.001" "-122.001" [gpx_text "ele" "12"; gpx_text "time" t1]].
    by rewrite !for_collect_cons, Hp1, result_bind_ok, Hp2. }
  rewrite Hr. eapply path_of_final_record.
  change (track_points (round_trip_gpx t0 t1))
    with [trkpt "45.0" "-122.0" [gpx_text "ele" "10"; gpx_text "time" t0];
          trkpt "45.001" "-122.001" [gpx_text "ele" "12"; gpx_text "time" t1]].
  by rewrite !for_collect_cons, Hp1, result_bind_ok, Hp2.
Qed.

(** ** Enriching once after the loop *)

Local Abbreviation rkjson_enrich_once :=
  (convert_gpx_to_rkjson_enrich_once float_of_string parse strftime_local).

(** The point loop without the enrichment. *)
Lemma append_loop_run (jdata : loc) (start_time : option datetime)
    (points : list element) (h : heap) (jd : dict) (l : list value) :
  h !! jdata = Some jd ->
  jd !! KEY_PATH = Some (VList l) ->
  exists jd',
    for_each (fun point =>
                path_point ← lift (point_of start_time point);
                list_append jdata KEY_PATH (VDict path_point)) points h
    = (<[jdata := jd']> h,
       match for_collect (point_of start_time) points with
       | Ok _ => Ok tt
       | Raise e => Raise e
       end)
    /\ forall pps, for_collect (point_of start_time) points = Ok pps ->
         jd' = <[KEY_PATH := VList (l ++ (VDict <$> pps))]> jd.
Proof.
  revert h jd l. induction points as [|p points IH]; intros h jd l Hj Hp.
  - exists jd. split; [cbn; unfold mret, M_ret; by rewrite insert_id|].
    intros pps [= <-]. by rewrite app_nil_r, insert_id.
  - cbn [for_each]. rewrite run_bind, run_bind. unfold lift at 1.
    rewrite for_collect_cons.
    destruct (point_of start_time p) as [pp|e] eqn:Epp.
    2:{ exists jd. rewrite result_bind_raise. split; [by rewrite insert_id|done]. }
    rewrite result_bind_ok. unfold list_append at 1.
    rewrite run_bind. unfold dict_getitem at 1.
    rewrite (deref_lookup _ _ _ Hj), Hp. unfold dict_setitem at 1.
    rewrite (deref_lookup _ _ _ Hj).
    destruct (IH (<[jdata := <[KEY_PATH := VList (l ++ [VDict pp])]> jd]> h)
                (<[KEY_PATH := VList (l ++ [VDict pp])]> jd) (l ++ [VDict pp]))
      as (jd' & Hrun & Hjd'); [by rewrite lookup_insert_eq..|].
    exists jd'. rewrite Hrun, insert_insert_eq. split.
    + by destruct (for_collect (point_of start_time) points).
    + intros pps Hpps.
      destruct (for_collect (point_of start_time) points) as [pps'|]; [|done].
      rewrite result_bind_ok in Hpps. injection Hpps as <-.
      rewrite (Hjd' pps' eq_refl), insert_insert_eq. by rewrite <- app_assoc.
Qed.

(** The run of the variant that enriches once, against the same reading
    of the conversion as a function, with the enrichment applied whether
    or not there are points. *)
Lemma convert_gpx_to_rkjson_enrich_once_run (data : element)
    (additional_data : loc) (h : heap) (ad : dict) :
  h !! additional_data = Some ad ->
  exists jd',
    rkjson_enrich_once data additional_data h
    = (<[fresh (dom h) := jd']> h,
       match record_of data ad with
       | Ok _ => Ok (fresh (dom h))
       | Raise e => Raise e
       end)
    /\ forall e0 start s pps,
         head (metadata_times data ++ all_times data) = Some e0 ->
         parse (text e0) = Ok start ->
         is_Some (utcoffset start) ->
         strftime_local start = Ok s ->
         for_collect (point_of (Some start)) (track_points data) = Ok pps ->
         jd' = <[KEY_PATH := VList (VDict <$> pps)]> (initial_record s ∪ ad ∪ DEFAULTS_RK).
Proof.
  intros Ha. set (j := fresh (dom h)).
  assert (Hfresh : h !! j = None).
  { apply not_elem_of_dom. apply is_fresh. }
  assert (Hne : j ≠ additional_data) by congruence.
  assert (Hsucc : forall e0 start s pps,
             head (metadata_times data ++ all_times data) = Some e0 ->
             parse (text e0) = Ok start ->
             is_Some (utcoffset start) ->
             strftime_local start = Ok s ->
             for_collect (point_of (Some start)) (track_points data) = Ok pps ->
             resolve_start_time parse data = Ok (Some start)
             /\ astimezone_strftime strftime_local (Some start) = Ok s).
  { intros e0 start s pps Hh Hp [o Ho] Hs Hc. split.
    - unfold resolve_start_time. destruct (metadata_times data) as [|e1 ?].
      + destruct (all_times data) as [|e1 ?]; [done|]. injection Hh as ->.
        by rewrite Hp.
      + injection Hh as ->. by rewrite Hp.
    - unfold astimezone_strftime. by rewrite Ho. }
  unfold convert_gpx_to_rkjson_enrich_once, rkjson_record.
  rewrite run_bind. unfold new_dict at 1. fold j.
  rewrite run_bind. unfold dict_setitem at 1. rewrite deref_insert, insert_insert_eq.
  rewrite run_bind. unfold lift at 1.
  change (match xpath data [ns "metadata"; ns "time"] with
          | [] => _
          | e :: _ => _
          end) with (resolve_start_time parse data).
  destruct (resolve_start_time parse data) as [start_time|e] eqn:Est.
  2:{ eexists. rewrite result_bind_raise. split; [reflexivity|].
      intros e0 start s pps Hh Hp Ho Hs Hc.
      by destruct (Hsucc e0 start s pps Hh Hp Ho Hs Hc) as [? _]. }
  rewrite result_bind_ok, run_bind. unfold lift at 1.
  destruct (astimezone_strftime strftime_local start_time) as [s|e] eqn:Es.
  2:{ eexists. rewrite result_bind_raise. split; [reflexivity|].
      intros e0 start s pps Hh Hp Ho Hs Hc.
      destruct (Hsucc e0 start s pps Hh Hp Ho Hs Hc) as [[= ->] Hf]. congruence. }
  rewrite result_bind_ok, run_bind. unfold dict_setitem at 1.
  rewrite deref_insert, insert_insert_eq, run_bind.
  fold (initial_record s).
  destruct (append_loop_run j start_time (track_points data)
              (<[j := initial_record s]> h) (initial_record s) [])
    as (jd1 & Hrun & Hjd1); [by rewrite lookup_insert_eq|done|].
  change (xpath data [ns "trk"; ns "trkseg"; ns "trkpt"]) with (track_points data).
  rewrite Hrun, insert_insert_eq.
  destruct (for_collect (point_of start_time) (track_points data)) as [pps|e] eqn:Ec.
  2:{ eexists. rewrite result_bind_raise. split; [reflexivity|].
      intros e0 start s' pps Hh Hp Ho Hs Hc.
      destruct (Hsucc e0 start s' pps Hh Hp Ho Hs Hc) as [[= ->] _]. congruence. }
  rewrite result_bind_ok, run_bind.
  rewrite (enrich_data_runkeeper _ _ _ jd1 ad);
    [|by rewrite lookup_insert_eq|by rewrite lookup_insert_ne].
  rewrite insert_insert_eq. unfold mret, M_ret. eexists. split; [reflexivity|].
  intros e0 start s' pps' Hh Hp Ho Hs Hc.
  destruct (Hsucc e0 start s' pps' Hh Hp Ho Hs Hc) as [[= ->] Hf].
  assert (s' = s) as -> by congruence.
  assert (pps' = pps) as -> by congruence.
  rewrite (Hjd1 pps eq_refl). by rewrite <- !insert_union_l.
Qed.

(** On a document with at least one track point, enriching once per point
    and enriching once after the loop return the same record, or raise
    the same exception. *)
Lemma enrich_per_point_same_record {A : Type} (data : element)
    (additional_data : loc) (h : heap) (ad : dict) (f : dict -> option A) :
  h !! additional_data = Some ad ->
  track_points data ≠ [] ->
  returned (rkjson data additional_data h) f
  = returned (rkjson_enrich_once data additional_data h) f
  /\ (rkjson data additional_data h).2
     = (rkjson_enrich_once data additional_data h).2.
Proof.
  intros Ha Hpoints.
  destruct (convert_gpx_to_rkjson_run float_of_string parse strftime_local
              data additional_data h ad Ha) as (jd1 & -> & Hjd1).
  destruct (convert_gpx_to_rkjson_enrich_once_run data additional_data h ad Ha)
    as (jd2 & -> & Hjd2).
  destruct (record_of data ad) as [r|e] eqn:Er; [|done].
  split; [|done]. cbn. rewrite !lookup_insert_eq. cbn.
  rewrite (Hjd1 r eq_refl).
  apply rkjson_record_ok in Er as (e0 & start & s & pps & Hh & Hp & Ho & Hs & Hc & ->).
  rewrite (Hjd2 e0 start s pps Hh Hp Ho Hs Hc).
  unfold final_record. by destruct (track_points data).
Qed.

End Claims.

(** ** The claims at the sample documents *)

Lemma caller_heap_lookup (ad : dict) : caller_heap ad !! 1%positive = Some ad.
Proof. apply lookup_singleton_eq. Qed.



(** C2, as stated, fails for a point half a second before the start
    time: the difference is -0.5 s, whose floor is -1, and the code
    stores 0. *)
Lemma elapsed_seconds_truncated_not_floored :
  exists pp,
    returned (sample_rkjson gpx_early_point ∅) path_of = Some [pp]
    /\ sample_parse (Some "2013-05-01T11:59:59.500Z") = Ok (Datetime (T0 - 500000) (Some 0))
    /\ sample_parse (Some "2013-05-01T12:00:00Z") = Ok (Datetime T0 (Some 0))
    /\ datetime_sub (Datetime (T0 - 500000) (Some 0)) (Some (Datetime T0 (Some 0)))
       = Ok (-500000)
    /\ -500000 / 1000000 = -1
    /\ pp !! KEY_TIMESTAMP = Some (VInt 0).
Proof. eexists. repeat split; reflexivity. Qed.

Lemma elapsed_seconds_of_points_witness :
  exists e0 start,
    head (metadata_times sample_gpx ++ all_times sample_gpx) = Some e0
    /\ sample_parse (text e0) = Ok start
    /\ Forall2 (fun point pp =>
                  match time_element point with
                  | None => pp !! KEY_TIMESTAMP = None
                  | Some e =>
                      exists ts td,
                        sample_parse (text e) = Ok ts
                        /\ datetime_sub ts (Some start) = Ok td
                        /\ pp !! KEY_TIMESTAMP = Some (VInt (int_total_seconds td))
                        /\ (Z.abs td < 2 ^ 34 * 1000000 ->
                            pp !! KEY_TIMESTAMP = Some (VInt (Z.quot td 1000000)))
                        /\ (0 <= td < 2 ^ 34 * 1000000 ->
                            pp !! KEY_TIMESTAMP = Some (VInt (td / 1000000)))
                  end) (track_points sample_gpx) sample_path.
Proof.
  apply (elapsed_seconds_of_points sample_float_of_string sample_parse
           sample_strftime_local sample_gpx 1%positive (caller_heap ∅) ∅ sample_path
           (caller_heap_lookup ∅)).
  reflexivity.
Defined.



(** C5, as stated, fails for an override under the key ['path']: the
    record keeps the path it built.  It also fails on a track without
    points, where the record has none of the default keys. *)
Lemma override_of_path_not_preserved :
  (exists v,
     returned (sample_rkjson sample_gpx {[ KEY_PATH := VStr "mine" ]})
              (fun jd => jd !! KEY_PATH) = Some v
     /\ v ≠ VStr "mine")
  /\ (exists jd,
        returned (sample_rkjson gpx_no_points ∅) Some = Some jd
        /\ jd !! KEY_TYPE = None).
Proof.
  split.
  - eexists. split; [reflexivity|discriminate].
  - eexists. split; reflexivity.
Qed.

Lemma enrichment_of_returned_record_witness :
  exists jd,
    returned (sample_rkjson sample_gpx {[ KEY_TYPE := VStr "Cycling" ]}) Some = Some jd
    /\ jd !! KEY_TYPE = Some (VStr "Cycling")
    /\ jd !! KEY_NOTES = Some (VStr "").
Proof.
  assert (Hsome : is_Some (returned (sample_rkjson sample_gpx
                                       {[ KEY_TYPE := VStr "Cycling" ]}) Some)).
  { eexists. reflexivity. }
  destruct Hsome as [jd Hjd]. exists jd. split; [exact Hjd|].
  destruct (enrichment_of_returned_record sample_float_of_string sample_parse
              sample_strftime_local sample_gpx 1%positive
              (caller_heap {[ KEY_TYPE := VStr "Cycling" ]})
              {[ KEY_TYPE := VStr "Cycling" ]} jd
              (caller_heap_lookup _)) as [Hov Hdef].
  - discriminate.
  - exact Hjd.
  - split.
    + apply Hov; [reflexivity|discriminate|discriminate].
    + apply (Hdef KEY_NOTES (VStr "")). reflexivity.
Defined.

(** C6, as stated, fails twice: the exception of [convert_gpx_to_geojson]
    is [IndexError], not a [MissingTrackNameError]; and
    [convert_gpx_to_rkjson] does not return on every document without a
    name, here one that has no time element either. *)
Lemma missing_name_raises_index_error :
  track_names gpx_no_name = []
  /\ (exists e, sample_geojson gpx_no_name = Raise e
                /\ exn_name e ≠ "MissingTrackNameError")
  /\ track_names gpx_bare = []
  /\ (sample_rkjson gpx_bare ∅).2 = Raise AttributeError.
Proof.
  split; [reflexivity|]. split.
  - exists IndexError. split; [reflexivity|discriminate].
  - split; reflexivity.
Qed.

Lemma missing_track_name_witness :
  sample_geojson gpx_no_name = Raise IndexError
  /\ exists jdata, (sample_rkjson gpx_no_name ∅).2 = Ok jdata.
Proof.
  destruct (missing_track_name sample_float_of_string sample_parse
              sample_strftime_local gpx_no_name 1%positive eq_refl) as [Hgeo Hrk].
  split; [exact Hgeo|].
  apply (Hrk (caller_heap ∅) ∅ (gpx_text "time" "2013-05-01T12:00:00Z")
             (Datetime T0 (Some 0)) "Wed, 01 May 2013 12:00:00").
  - apply caller_heap_lookup.
  - reflexivity.
  - reflexivity.
  - by eexists.
  - reflexivity.
  - repeat constructor. eexists. reflexivity.
Defined.

(** C7, as stated, fails when the metadata time (the time the file was
    written) is later than the track: the point times increase, and the
    elapsed seconds are negative. *)
Lemma elapsed_seconds_negative_after_late_metadata :
  exists path,
    returned (sample_rkjson gpx_late_metadata ∅) path_of = Some path
    /\ omap (point_instant sample_parse) (track_points gpx_late_metadata)
       = [T0; T0 + 30000000]
    /\ Sorted Z.lt [T0; T0 + 30000000]
    /\ omap timestamp_of path = [-60; -30]
    /\ ~ Forall (fun n => 0 <= n) (omap timestamp_of path).
Proof.
  eexists. split; [reflexivity|]. split; [reflexivity|]. split.
  - repeat constructor.
  - split; [reflexivity|]. intros Hall. apply Forall_cons in Hall as [Hneg _].
    by apply Hneg.
Qed.

Lemma elapsed_seconds_monotone_witness :
  Sorted Z.le (omap timestamp_of sample_path)
  /\ Forall (fun n => 0 <= n) (omap timestamp_of sample_path).
Proof.
  destruct (elapsed_seconds_monotone sample_float_of_string sample_parse
              sample_strftime_local sample_gpx 1%positive (caller_heap ∅) ∅
              sample_path (gpx_text "time" "2013-05-01T12:00:00Z")
              (Datetime T0 (Some 0)) (caller_heap_lookup ∅))
    as [Hmono Hnonneg].
  - reflexivity.
  - reflexivity.
  - reflexivity.
  - change (Sorted Z.le [T0; T0 + 30000000]). repeat constructor. unfold T0. lia.
  - split; [exact Hmono|]. apply Hnonneg. intros t Ht.
    change (Some T0 = Some t) in Ht. injection Ht as <-. reflexivity.
Defined.

Lemma round_trip_path_witness :
  returned (sample_rkjson sample_gpx ∅) path_of = Some sample_path.
Proof.
  apply (round_trip_path sample_float_of_string sample_parse sample_strftime_local
           "2013-05-01T12:00:00Z" "2013-05-01T12:00:30Z"
           (Datetime T0 (Some 0)) (Datetime (T0 + 30000000) (Some 0))
           "Wed, 01 May 2013 12:00:00" _ _ _ _ _ _ 1%positive (caller_heap ∅) ∅).
  all: try reflexivity.
  by eexists.
Defined.

Lemma additional_data_unchanged_witness :
  (sample_rkjson sample_gpx {[ KEY_TYPE := VStr "Cycling" ]}).1 !! 1%positive
  = Some ({[ KEY_TYPE := VStr "Cycling" ]} : dict).
Proof.
  exact (proj1 (additional_data_unchanged sample_float_of_string sample_parse
                  sample_strftime_local sample_gpx 1%positive
                  (caller_heap {[ KEY_TYPE := VStr "Cycling" ]})
                  {[ KEY_TYPE := VStr "Cycling" ]} (caller_heap_lookup _))).
Defined.

(** * Further properties of the conversion code *)

(** ** enrich_data *)

(** X1: a second [enrich_data] with the same arguments changes nothing:
    it leaves the heap the first call left and ends the same way (also
    for a type without defaults, and also when the record and the
    overrides are one dict). *)
Theorem enrich_data_twice (jdata additional_data : loc) (data_type : string)
    (h : heap) (jd ad : dict) :
  h !! jdata = Some jd -> h !! additional_data = Some ad ->
  enrich_data jdata additional_data data_type
    (enrich_data jdata additional_data data_type h).1
  = enrich_data jdata additional_data data_type h.
Proof.
  intros Hj Ha. rewrite (enrich_data_run _ _ _ _ _ _ Hj Ha).
  assert (Hidem : jd ∪ ad ∪ ad = jd ∪ ad).
  { apply map_eq. intros k. rewrite !lookup_union.
    by destruct (jd !! k), (ad !! k). }
  destruct (decide (jdata = additional_data)) as [->|Hne].
  - assert (jd = ad) as -> by congruence.
    destruct (DEFAULT_DATA !! data_type) as [defaults|] eqn:Ed; cbn [fst].
    + rewrite (enrich_data_run _ _ _ _ (ad ∪ ad ∪ defaults) (ad ∪ ad ∪ defaults));
        [|by rewrite lookup_insert_eq..].
      rewrite Ed, insert_insert_eq. do 2 f_equal.
      apply map_eq. intros k. rewrite !lookup_union.
      by destruct (ad !! k), (defaults !! k).
    + rewrite (enrich_data_run _ _ _ _ (ad ∪ ad) (ad ∪ ad));
        [|by rewrite lookup_insert_eq..].
      rewrite Ed, insert_insert_eq. do 2 f_equal.
      apply map_eq. intros k. rewrite !lookup_union. by destruct (ad !! k).
  - destruct (DEFAULT_DATA !! data_type) as [defaults|] eqn:Ed; cbn [fst].
    + rewrite (enrich_data_run _ _ _ _ (jd ∪ ad ∪ defaults) ad);
        [|by rewrite lookup_insert_eq|by rewrite lookup_insert_ne].
      by rewrite Ed, enrich_absorb, insert_insert_eq.
    + rewrite (enrich_data_run _ _ _ _ (jd ∪ ad) ad);
        [|by rewrite lookup_insert_eq|by rewrite lookup_insert_ne].
      by rewrite Ed, Hidem, insert_insert_eq.
Qed.

Lemma enrich_data_twice_witness :
  let h : heap :=
    {[ 1%positive := {[ KEY_TYPE := VStr "Cycling" ]};
       2%positive := {[ KEY_NOTES := VStr "kept" ]} ]} in
  enrich_data 2%positive 1%positive TYPE_RK
    (enrich_data 2%positive 1%positive TYPE_RK h).1
  = enrich_data 2%positive 1%positive TYPE_RK h.
Proof.
  intros h.
  apply (enrich_data_twice 2%positive 1%positive TYPE_RK h
           {[ KEY_NOTES := VStr "kept" ]} {[ KEY_TYPE := VStr "Cycling" ]});
    reflexivity.
Defined.

(** X2: for a data type other than ['runkeeper'], [enrich_data] raises
    [KeyError], and it does so after the override loop: the record is
    left with every missing override key filled in, and no other dict is
    touched. *)
Theorem enrich_data_unknown_type (jdata additional_data : loc) (data_type : string)
    (h : heap) (jd ad : dict) :
  data_type ≠ TYPE_RK ->
  h !! jdata = Some jd -> h !! additional_data = Some ad ->
  enrich_data jdata additional_data data_type h
  = (<[jdata := jd ∪ ad]> h, Raise KeyError).
Proof.
  intros Hne Hj Ha. rewrite (enrich_data_run _ _ _ _ _ _ Hj Ha).
  by rewrite (DEFAULT_DATA_other _ Hne).
Qed.

Lemma enrich_data_unknown_type_witness :
  let h : heap :=
    {[ 1%positive := {[ KEY_TYPE := VStr "Cycling" ]};
       2%positive := {[ KEY_NOTES := VStr "kept" ]} ]} in
  enrich_data 2%positive 1%positive TYPE_GEOJSON h
  = (<[2%positive := {[ KEY_NOTES := VStr "kept" ]} ∪ {[ KEY_TYPE := VStr "Cycling" ]}]> h,
     Raise KeyError).
Proof.
  intros h.
  apply (enrich_data_unknown_type 2%positive 1%positive TYPE_GEOJSON h);
    [discriminate|reflexivity|reflexivity].
Defined.

(** ** convert_gpx_to_rkjson and convert_gpx_to_geojson *)

Lemma for_collect_app_raise {X Y : Type} (g : X -> result Y) (good rest : list X)
    (bad : X) (e : exn) :
  Forall (fun x => exists y, g x = Ok y) good ->
  g bad = Raise e ->
  for_collect g (good ++ bad :: rest) = Raise e.
Proof.
  intros Hgood Hbad. induction Hgood as [|x good [y Hy] _ IH].
  - cbn [app]. by rewrite for_collect_cons, Hbad.
  - cbn [app]. by rewrite for_collect_cons, Hy, result_bind_ok, IH.
Qed.

Lemma initial_record_literal (s : string) :
  initial_record s = {[ KEY_PATH := VList []; KEY_STARTTIME := VStr s ]}.
Proof. reflexivity. Qed.

Lemma head_app_cons {A : Type} (l1 l2 : list A) (x : A) :
  head l1 = Some x -> head (l1 ++ l2) = Some x.
Proof. by destruct l1. Qed.

Section MoreProperties.

Variable float_of_string : string -> option spec_float.
Variable parse : option string -> result datetime.
Variable strftime_local : datetime -> result string.

Local Abbreviation point_of := (path_point_of float_of_string parse).
Local Abbreviation rkjson := (convert_gpx_to_rkjson float_of_string parse strftime_local).
Local Abbreviation geojson := (convert_gpx_to_geojson float_of_string parse strftime_local).
Local Abbreviation record_of := (rkjson_record float_of_string parse strftime_local).

Lemma resolve_start_time_head (data : element) (e0 : element) (start : datetime) :
  head (metadata_times data ++ all_times data) = Some e0 ->
  parse (text e0) = Ok start ->
  resolve_start_time parse data = Ok (Some start).
Proof.
  intros Hh Hp. unfold resolve_start_time.
  destruct (metadata_times data) as [|e1 ?].
  - destruct (all_times data) as [|e1 ?]; [done|]. injection Hh as ->.
    by rewrite Hp.
  - injection Hh as ->. by rewrite Hp.
Qed.

(** The exception of a run, read off [rkjson_record]. *)
Lemma raised_rkjson (data : element) (additional_data : loc) (h : heap)
    (ad : dict) (e : exn) :
  h !! additional_data = Some ad ->
  record_of data ad = Raise e ->
  (rkjson data additional_data h).2 = Raise e.
Proof.
  intros Ha Hr.
  destruct (convert_gpx_to_rkjson_run float_of_string parse strftime_local
              data additional_data h ad Ha) as (jd' & -> & _).
  by rewrite Hr.
Qed.

Lemma dom_set_last {Y : Type} (key : string) (wrap : Y -> value) (ys : list Y)
    (d : dict) :
  dom (set_last key wrap ys d) ⊆ {[ key ]} ∪ dom d.
Proof.
  unfold set_last. destruct (last ys).
  - rewrite dom_insert_L. reflexivity.
  - apply union_subseteq_r.
Qed.

Lemma lookup_set_last_ne {Y : Type} (key key' : string) (wrap : Y -> value)
    (ys : list Y) (d : dict) :
  key ≠ key' -> set_last key wrap ys d !! key' = d !! key'.
Proof.
  intros Hne. unfold set_last. destruct (last ys); [|done].
  by rewrite lookup_insert_ne.
Qed.

(** One path point, key by key. *)
Lemma path_point_keys (start_time : option datetime) (point : element) (pp : dict) :
  point_of start_time point = Ok pp ->
  exists lat lon,
    py_float float_of_string (get point "lat") = Ok lat
    /\ py_float float_of_string (get point "lon") = Ok lon
    /\ pp !! KEY_LAT = Some (VFloat lat)
    /\ pp !! KEY_LON = Some (VFloat lon)
    /\ pp !! KEY_TYPE = Some (VStr "gps")
    /\ match last (iter point (ns "ele")) with
       | None => pp !! KEY_ALT = None
       | Some e =>
           exists alt,
             py_float float_of_string (text e) = Ok alt
             /\ pp !! KEY_ALT = Some (VFloat alt)
       end
    /\ dom pp ⊆ {[ KEY_LAT; KEY_LON; KEY_TYPE; KEY_ALT; KEY_TIMESTAMP ]}.
Proof.
  rewrite path_point_of_eq.
  destruct (py_float float_of_string (get point "lat")) as [lat|]; [|done].
  destruct (py_float float_of_string (get point "lon")) as [lon|]; [|done].
  rewrite !result_bind_ok.
  destruct (for_collect _ (iter point (ns "ele"))) as [alts|] eqn:Ea; [|done].
  rewrite result_bind_ok.
  destruct (for_collect _ (iter point (ns "time"))) as [tds|]; [|done].
  rewrite result_bind_ok. intros [= <-]. exists lat, lon.
  apply for_collect_Forall2, Forall2_last in Ea.
  split; [done|]. split; [done|].
  rewrite !(lookup_set_last_ne KEY_TIMESTAMP) by done.
  rewrite !(lookup_set_last_ne KEY_ALT) by done.
  split; [reflexivity|]. split; [reflexivity|]. split; [reflexivity|]. split.
  - unfold set_last.
    destruct (last (iter point (ns "ele"))) as [e|], (last alts) as [alt|];
      try done.
    exists alt. split; [done|]. apply lookup_insert_eq.
  - etrans; [apply dom_set_last|]. apply union_least.
    + apply singleton_subseteq_l. set_solver.
    + etrans; [apply dom_set_last|]. rewrite !dom_insert_L, dom_empty_L.
      set_unfold. intros k. tauto.
Qed.

(** X3: the path of a returned record has one point per track point, in
    document order; each holds the floats of the [lat] and [lon]
    attributes and the type ['gps'], holds the float of the last
    elevation element inside the track point under ['altitude'] exactly
    when there is one, and has no key besides these and
    ['timestamp']. *)
Theorem path_points_of_track_points (data : element) (additional_data : loc)
    (h : heap) (ad : dict) (path : list dict) :
  h !! additional_data = Some ad ->
  returned (rkjson data additional_data h) path_of = Some path ->
  Forall2 (fun point pp =>
             exists lat lon,
               py_float float_of_string (get point "lat") = Ok lat
               /\ py_float float_of_string (get point "lon") = Ok lon
               /\ pp !! KEY_LAT = Some (VFloat lat)
               /\ pp !! KEY_LON = Some (VFloat lon)
               /\ pp !! KEY_TYPE = Some (VStr "gps")
               /\ match last (iter point (ns "ele")) with
                  | None => pp !! KEY_ALT = None
                  | Some e =>
                      exists alt,
                        py_float float_of_string (text e) = Ok alt
                        /\ pp !! KEY_ALT = Some (VFloat alt)
                  end
               /\ dom pp ⊆ {[ KEY_LAT; KEY_LON; KEY_TYPE; KEY_ALT; KEY_TIMESTAMP ]})
          (track_points data) path.
Proof.
  intros Ha Hret.
  destruct (returned_path float_of_string parse strftime_local _ _ _ _ _ Ha Hret)
    as (e0 & start & _ & _ & Hc).
  apply for_collect_Forall2 in Hc. eapply Forall2_impl; [exact Hc|].
  intros point pp Hpp. by apply path_point_keys in Hpp.
Qed.

(** X4: for a document without track points the returned record is
    exactly the empty path and the formatted start time, whatever the
    overrides are: the enrichment sits in the point loop and does not
    run. *)
Theorem record_without_track_points (data : element) (additional_data : loc)
    (h : heap) (ad jd : dict) :
  h !! additional_data = Some ad ->
  track_points data = [] ->
  returned (rkjson data additional_data h) Some = Some jd ->
  exists e0 start s,
    head (metadata_times data ++ all_times data) = Some e0
    /\ parse (text e0) = Ok start
    /\ strftime_local start = Ok s
    /\ jd = {[ KEY_PATH := VList []; KEY_STARTTIME := VStr s ]}.
Proof.
  intros Ha Hnone. rewrite (returned_rkjson _ _ _ _ _ _ ad _ Ha).
  destruct (record_of data ad) as [r|] eqn:Er; [|done]. intros [= <-].
  apply rkjson_record_ok in Er as (e0 & start & s & pps & Hh & Hp & _ & Hs & _ & ->).
  exists e0, start, s. rewrite Hnone. cbn [final_record].
  by rewrite initial_record_literal.
Qed.

(** X5: for a document with at least one track point the keys of the
    returned record are ['path'], ['start_time'], the keys of the
    overrides and the five default keys, and no other. *)
Theorem keys_of_returned_record (data : element) (additional_data : loc)
    (h : heap) (ad jd : dict) :
  h !! additional_data = Some ad ->
  track_points data ≠ [] ->
  returned (rkjson data additional_data h) Some = Some jd ->
  dom jd
  = {[ KEY_PATH; KEY_STARTTIME ]} ∪ dom ad
    ∪ {[ KEY_TYPE; KEY_EQUIPMENT; KEY_NOTES; KEY_FB; KEY_TWIT ]}.
Proof.
  intros Ha Hpoints. rewrite (returned_rkjson _ _ _ _ _ _ ad _ Ha).
  destruct (record_of data ad) as [r|] eqn:Er; [|done]. intros [= <-].
  apply rkjson_record_ok in Er as (e0 & start & s & pps & _ & _ & _ & _ & _ & ->).
  unfold final_record. destruct (track_points data); [done|].
  rewrite dom_insert_L, !dom_union_L. unfold initial_record, DEFAULTS_RK.
  rewrite !dom_insert_L, dom_empty_L, dom_singleton_L.
  apply set_eq. intros k. set_unfold. tauto.
Qed.

(** X6: the overrides have no influence on the path and on the start
    time: two runs on the same document return the same path and the
    same ['start_time'], or both return nothing, whatever the two override
    dicts and heaps are. *)
Theorem path_independent_of_overrides (data : element)
    (additional_data additional_data' : loc) (h h' : heap) (ad ad' : dict) :
  h !! additional_data = Some ad ->
  h' !! additional_data' = Some ad' ->
  returned (rkjson data additional_data h) path_of
  = returned (rkjson data additional_data' h') path_of
  /\ returned (rkjson data additional_data h) (fun jd => jd !! KEY_STARTTIME)
     = returned (rkjson data additional_data' h') (fun jd => jd !! KEY_STARTTIME).
Proof.
  intros Ha Ha'.
  rewrite !(returned_rkjson _ _ _ _ _ _ ad _ Ha).
  rewrite !(returned_rkjson _ _ _ _ _ _ ad' _ Ha').
  unfold rkjson_record.
  destruct (resolve_start_time parse data) as [start_time|]; [|done].
  rewrite !result_bind_ok.
  destruct (astimezone_strftime strftime_local start_time) as [s|]; [|done].
  rewrite !result_bind_ok.
  destruct (for_collect (point_of start_time) (track_points data)) as [pps|] eqn:Ec;
    [|done].
  rewrite !result_bind_ok. split.
  - by rewrite !(path_of_final_record float_of_string parse _ _ _ _ _ Ec).
  - rewrite !(final_record_initial _ _ s _ KEY_STARTTIME (VStr s)); try done;
      apply lookup_insert_eq.
Qed.

(** X7: [convert_gpx_to_rkjson] modifies no dict that existed before the
    call, whether it returns or raises, and the reference it returns is
    a new one. *)
Theorem rkjson_allocates_only (data : element) (additional_data : loc)
    (h : heap) (ad : dict) :
  h !! additional_data = Some ad ->
  (forall l, is_Some (h !! l) ->
     (rkjson data additional_data h).1 !! l = h !! l)
  /\ (forall jdata,
        (rkjson data additional_data h).2 = Ok jdata ->
        h !! jdata = None
        /\ is_Some ((rkjson data additional_data h).1 !! jdata)).
Proof.
  intros Ha.
  destruct (convert_gpx_to_rkjson_run float_of_string parse strftime_local
              data additional_data h ad Ha) as (jd' & -> & _).
  assert (Hfresh : h !! fresh (dom h) = None).
  { apply not_elem_of_dom, is_fresh. }
  cbn [fst snd]. split.
  - intros l [d Hl]. rewrite lookup_insert_ne; [done|]. congruence.
  - intros jdata Hok. destruct (record_of data ad); [|done].
    injection Hok as <-. split; [done|]. by rewrite lookup_insert_eq.
Qed.

(** X8: a call does not depend on the calls before it: after any run
    with the same overrides dict (such as the shared default argument),
    a run returns the record, or raises the exception, it would have
    returned or raised before. *)
Theorem rkjson_independent_of_history (first data : element)
    (additional_data : loc) (h : heap) (ad : dict) :
  h !! additional_data = Some ad ->
  (forall (f : dict -> option value),
     returned (rkjson data additional_data (rkjson first additional_data h).1) f
     = returned (rkjson data additional_data h) f)
  /\ (forall e,
        (rkjson data additional_data (rkjson first additional_data h).1).2 = Raise e
        <-> (rkjson data additional_data h).2 = Raise e).
Proof.
  intros Ha.
  assert (Ha1 : (rkjson first additional_data h).1 !! additional_data = Some ad).
  { destruct (convert_gpx_to_rkjson_run float_of_string parse strftime_local
                first additional_data h ad Ha) as (jd' & -> & _).
    cbn [fst]. rewrite lookup_insert_ne; [done|].
    intros Heq. assert (Hf : h !! fresh (dom h) = None).
    { apply not_elem_of_dom, is_fresh. }
    rewrite Heq in Hf. congruence. }
  split.
  - intros f. by rewrite (returned_rkjson _ _ _ _ _ _ ad _ Ha1),
                         (returned_rkjson _ _ _ _ _ _ ad _ Ha).
  - intros e.
    destruct (convert_gpx_to_rkjson_run float_of_string parse strftime_local
                data additional_data _ ad Ha1) as (jd1 & -> & _).
    destruct (convert_gpx_to_rkjson_run float_of_string parse strftime_local
                data additional_data h ad Ha) as (jd2 & -> & _).
    cbn [snd]. by destruct (record_of data ad).
Qed.

(** X9: the conversion is all or nothing: when the start time resolves
    and formats and a track point fails to convert, the run raises the
    exception of the first such point in document order and returns no
    record, however many points converted before it. *)
Theorem first_failing_point (data : element) (additional_data : loc) (h : heap)
    (ad : dict) (e0 : element) (start : datetime) (s : string)
    (good rest : list element) (bad : element) (e : exn) :
  h !! additional_data = Some ad ->
  head (metadata_times data ++ all_times data) = Some e0 ->
  parse (text e0) = Ok start ->
  is_Some (utcoffset start) ->
  strftime_local start = Ok s ->
  track_points data = good ++ bad :: rest ->
  Forall (fun point => exists pp, point_of (Some start) point = Ok pp) good ->
  point_of (Some start) bad = Raise e ->
  (rkjson data additional_data h).2 = Raise e.
Proof.
  intros Ha Hh Hp [o Ho] Hs Hpoints Hgood Hbad.
  apply (raised_rkjson _ _ _ ad _ Ha). unfold rkjson_record.
  rewrite (resolve_start_time_head _ _ _ Hh Hp), result_bind_ok.
  unfold astimezone_strftime. rewrite Ho, Hs, result_bind_ok, Hpoints.
  by rewrite (for_collect_app_raise _ _ _ _ _ Hgood Hbad).
Qed.

(** X10: a start time without a time zone is refused: when the resolved
    start time parses to a naive datetime, [convert_gpx_to_rkjson] raises
    [ValueError] (from [astimezone]) before it looks at a track point. *)
Theorem naive_start_time (data : element) (additional_data : loc) (h : heap)
    (ad : dict) (e0 : element) (start : datetime) :
  h !! additional_data = Some ad ->
  head (metadata_times data ++ all_times data) = Some e0 ->
  parse (text e0) = Ok start ->
  utcoffset start = None ->
  (rkjson data additional_data h).2 = Raise ValueError.
Proof.
  intros Ha Hh Hp Ho. apply (raised_rkjson _ _ _ ad _ Ha). unfold rkjson_record.
  rewrite (resolve_start_time_head _ _ _ Hh Hp), result_bind_ok.
  unfold astimezone_strftime. by rewrite Ho.
Qed.

(** X11: [convert_gpx_to_geojson] returns exactly when the document has
    a name element inside a track and a time element inside the
    metadata, that time parses to an aware datetime that formats, and
    every track point has [lat] and [lon] attributes that are floats; the
    record then holds the text of the first such name, the formatted
    time and the [lon], [lat] pairs.  Elevation and time elements of
    the track points play no part. *)
Theorem geojson_returns_iff (data : element) (additional_data : loc) (jd : dict) :
  geojson data additional_data = Ok jd <->
  exists name_el time_el start s (lonlat : list (spec_float * spec_float)),
    head (track_names data) = Some name_el
    /\ head (metadata_times data) = Some time_el
    /\ parse (text time_el) = Ok start
    /\ is_Some (utcoffset start)
    /\ strftime_local start = Ok s
    /\ Forall2 (fun point ll =>
                  py_float float_of_string (get point "lon") = Ok ll.1
                  /\ py_float float_of_string (get point "lat") = Ok ll.2)
               (track_points data) lonlat
    /\ jd = geojson_record (text_value (text name_el)) s
              ((fun ll => VList [VFloat ll.1; VFloat ll.2]) <$> lonlat).
Proof.
  unfold convert_gpx_to_geojson.
  change (xpath data [ns "trk"; ns "name"]) with (track_names data).
  change (xpath data [ns "metadata"; ns "time"]) with (metadata_times data).
  change (xpath data [ns "trk"; ns "trkseg"; ns "trkpt"]) with (track_points data).
  split.
  - destruct (track_names data) as [|name_el ?]; [done|].
    destruct (metadata_times data) as [|time_el ?]; [done|].
    cbn [index0]. rewrite !result_bind_ok.
    destruct (parse (text time_el)) as [start|] eqn:Ep; [|done].
    rewrite result_bind_ok. unfold astimezone_strftime.
    destruct (utcoffset start) as [o|] eqn:Eo; [|done].
    destruct (strftime_local start) as [s|] eqn:Es; [|done].
    rewrite result_bind_ok.
    destruct (for_collect _ (track_points data)) as [coords|] eqn:Ec; [|done].
    rewrite result_bind_ok. intros [= <-].
    apply for_collect_Forall2 in Ec.
    assert (Hll : exists lonlat : list (spec_float * spec_float),
               Forall2 (fun point ll =>
                          py_float float_of_string (get point "lon") = Ok ll.1
                          /\ py_float float_of_string (get point "lat") = Ok ll.2)
                       (track_points data) lonlat
               /\ coords = (fun ll => VList [VFloat ll.1; VFloat ll.2]) <$> lonlat).
    { revert Ec. generalize (track_points data). intros points Hc.
      induction Hc as [|point c points coords Hpc _ IH].
      - exists []. split; [constructor|done].
      - destruct IH as (lonlat & Hf & ->).
        destruct (py_float float_of_string (get point "lon")) as [lon|] eqn:Elon;
          [|done].
        destruct (py_float float_of_string (get point "lat")) as [lat|] eqn:Elat;
          [|done].
        rewrite !result_bind_ok in Hpc. injection Hpc as <-.
        exists ((lon, lat) :: lonlat). split; [by constructor|done]. }
    destruct Hll as (lonlat & Hf & ->).
    exists name_el, time_el, start, s, lonlat. rewrite Eo. eauto 10.
  - intros (name_el & time_el & start & s & lonlat
            & Hn & Ht & Hp & [o Ho] & Hs & Hf & ->).
    destruct (track_names data) as [|name_el' ?]; [done|]. injection Hn as ->.
    destruct (metadata_times data) as [|time_el' ?]; [done|]. injection Ht as ->.
    cbn [index0]. rewrite !result_bind_ok, Hp, result_bind_ok.
    unfold astimezone_strftime. rewrite Ho, Hs, result_bind_ok.
    assert (Hc : for_collect
                   (fun point =>
                      lon ← py_float float_of_string (get point "lon");
                      lat ← py_float float_of_string (get point "lat");
                      Ok (VList [VFloat lon; VFloat lat]))
                   (track_points data)
                 = Ok ((fun ll => VList [VFloat ll.1; VFloat ll.2]) <$> lonlat)).
    { apply for_collect_Forall2. apply Forall2_fmap_r.
      eapply Forall2_impl; [exact Hf|]. intros point [lon lat] [Hlon Hlat].
      cbn in Hlon, Hlat |- *. by rewrite Hlon, result_bind_ok, Hlat. }
    by rewrite Hc.
Qed.

(** X12: the two conversions read the same coordinates: when both return
    for a document, the GeoJSON coordinate list is the list of
    [[longitude, latitude]] of the RunKeeper path points, in the same
    order. *)
Theorem geojson_coordinates_match_path (data : element)
    (additional_data additional_data' : loc) (h : heap) (ad : dict)
    (path : list dict) (jd : dict) :
  h !! additional_data = Some ad ->
  returned (rkjson data additional_data h) path_of = Some path ->
  geojson data additional_data' = Ok jd ->
  coordinates_of jd
  = Some ((fun pp => VList [default VNone (pp !! KEY_LON);
                            default VNone (pp !! KEY_LAT)]) <$> path).
Proof.
  intros Ha Hret Hgeo.
  destruct (returned_path float_of_string parse strftime_local _ _ _ _ _ Ha Hret)
    as (e0 & start & _ & _ & Hpath).
  destruct (convert_gpx_to_geojson_ok float_of_string parse strftime_local
              _ _ _ Hgeo)
    as (name_el & time_el & start' & s & coords & _ & _ & _ & _ & Hcoords & ->).
  rewrite coordinates_of_geojson_record. f_equal. clear Hret Hgeo.
  apply for_collect_Forall2 in Hpath. apply for_collect_Forall2 in Hcoords.
  revert Hpath Hcoords. generalize (track_points data). intros points Hpath.
  revert coords. induction Hpath as [|point pp points path Hpp _ IH];
    intros coords Hcoords.
  - by inversion Hcoords.
  - inversion Hcoords as [|? c ? coords' Hc Hrest]; subst.
    apply path_point_keys in Hpp
      as (lat & lon & Hlat & Hlon & Hplat & Hplon & _).
    rewrite Hlon, result_bind_ok, Hlat, result_bind_ok in Hc.
    injection Hc as <-. cbn [fmap list_fmap]. rewrite <- (IH _ Hrest).
    by rewrite Hplat, Hplon.
Qed.

(** X13: the two conversions show the same start time whenever both
    return: the ['time'] property of the GeoJSON feature equals the
    ['start_time'] of the RunKeeper record. *)
Theorem geojson_time_matches_start_time (data : element)
    (additional_data additional_data' : loc) (h : heap) (ad : dict)
    (v : value) (jd : dict) :
  h !! additional_data = Some ad ->
  returned (rkjson data additional_data h) (fun r => r !! KEY_STARTTIME) = Some v ->
  geojson data additional_data' = Ok jd ->
  properties_of jd ≫= (fun p => p !! KEY_TIME) = Some v.
Proof.
  intros Ha. rewrite (returned_rkjson _ _ _ _ _ _ ad _ Ha).
  destruct (record_of data ad) as [r|] eqn:Er; [|done].
  apply rkjson_record_ok in Er
    as (e0 & start & s & pps & Hh & Hp & _ & Hs & _ & ->).
  rewrite (final_record_initial _ _ s ad KEY_STARTTIME (VStr s));
    [|done|apply lookup_insert_eq].
  intros [= <-] Hgeo.
  destruct (convert_gpx_to_geojson_ok float_of_string parse strftime_local
              _ _ _ Hgeo)
    as (name_el & time_el & start' & s' & coords & _ & Ht & Hp' & Hs' & _ & ->).
  rewrite (head_app_cons _ (all_times data) _ Ht) in Hh. injection Hh as <-.
  assert (start' = start) as -> by congruence.
  assert (s' = s) as -> by congruence.
  by rewrite properties_of_geojson_record.
Qed.

End MoreProperties.

(** ** convert_file *)

Section FileProperties.

Variable float_of_string : string -> option spec_float.
Variable parse : option string -> result datetime.
Variable strftime_local : datetime -> result string.
Variable fromstring : string -> option element.
Variable dumps : dict -> string.
Variable realpath : string -> string.
Variable may_read : string -> bool.
Variable may_write : string -> bool.

Local Abbreviation rkjson := (convert_gpx_to_rkjson float_of_string parse strftime_local).
Local Abbreviation geojson := (convert_gpx_to_geojson float_of_string parse strftime_local).
Local Abbreviation convert :=
  (convert_file float_of_string parse strftime_local fromstring dumps realpath
                may_read may_write).
Local Abbreviation is_file := (isfile realpath).

(** X14: [convert_file] ends in [sys.exit(-1)] exactly when the input is
    not a file, or the output is a file and [force] is not set; it has
    then printed one line and has changed neither a file nor a dict.  In
    particular an existing output is never overwritten without
    [force]. *)
Theorem convert_file_refuses (ifile ofile : string) (force : bool)
    (additional_data : loc) (format_type : string) (w : world) :
  ((convert ifile ofile force additional_data format_type w).2
   = Some (SystemExit (-1))
   <-> is_file w ifile = false \/ (is_file w ofile = true /\ force = false))
  /\ ((convert ifile ofile force additional_data format_type w).2
      = Some (SystemExit (-1)) ->
      files (convert ifile ofile force additional_data format_type w).1 = files w
      /\ objects (convert ifile ofile force additional_data format_type w).1
         = objects w
      /\ exists line,
           stdout (convert ifile ofile force additional_data format_type w).1
           = stdout w ++ [line]).
Proof.
  unfold convert_file.
  destruct (isfile realpath w ifile); cbn [negb].
  2:{ split; [split; [by left|done]|]. intros _. cbn. eauto. }
  destruct (isfile realpath w ofile), force; cbn [negb andb].
  2:{ split; [split; [by right|done]|]. intros _. cbn. eauto. }
  all: destruct (may_read ifile); cbn [negb];
       [destruct (may_write ofile); cbn [negb]|];
       repeat case_match;
       (split; [split; [discriminate|intros [?|[? ?]]; discriminate]|discriminate]).
Qed.

(** X15: whatever the outcome, [convert_file] changes no file other than
    the one the output path names; when the input path names another
    file, the input is left as it was. *)
Theorem convert_file_touches_output_only (ifile ofile : string) (force : bool)
    (additional_data : loc) (format_type : string) (w : world) (file : string) :
  file ≠ realpath ofile ->
  files (convert ifile ofile force additional_data format_type w).1 !! file
  = files w !! file.
Proof.
  intros Hne. unfold convert_file.
  destruct (isfile realpath w ifile); cbn [negb]; [|done].
  destruct (isfile realpath w ofile && negb force); [done|].
  destruct (may_read ifile); cbn [negb]; [|done].
  destruct (may_write ofile); cbn [negb]; [|done].
  destruct (bool_decide (format_type = TYPE_RK)).
  - destruct (fromstring _).
    + destruct (rkjson _ _ _) as [? [?|?]]; cbn;
        by rewrite ?lookup_insert_ne by done.
    + cbn. by rewrite lookup_insert_ne.
  - destruct (bool_decide (format_type = TYPE_GEOJSON)).
    + destruct (fromstring _).
      * destruct (geojson _ _); cbn; by rewrite ?lookup_insert_ne by done.
      * cbn. by rewrite lookup_insert_ne.
    + cbn. by rewrite ?lookup_insert_ne by done.
Qed.

Lemma guards_pass (ifile ofile : string) (force : bool) (w : world) :
  is_file w ifile = true ->
  is_file w ofile = false \/ force = true ->
  negb (is_file w ifile) = false /\ is_file w ofile && negb force = false.
Proof.
  intros -> [-> | ->]; [done|]. split; [done|]. apply andb_false_r.
Qed.

(** X16: in the RunKeeper format, when the guards pass, the input parses
    and the conversion returns a record, [convert_file] returns normally
    and leaves in the output file [json.dumps] of exactly that record (the
    input naming another file), printing nothing. *)
Theorem convert_file_writes_record (ifile ofile : string) (force : bool)
    (additional_data : loc) (w : world) (data : string) (tree : element)
    (r : dict) :
  files w !! realpath ifile = Some data ->
  is_file w ofile = false \/ force = true ->
  may_read ifile = true -> may_write ofile = true ->
  realpath ifile ≠ realpath ofile ->
  fromstring data = Some tree ->
  returned (rkjson tree additional_data (objects w)) Some = Some r ->
  (convert ifile ofile force additional_data TYPE_RK w).2 = None
  /\ files (convert ifile ofile force additional_data TYPE_RK w).1
     = <[realpath ofile := dumps r]> (files w)
  /\ stdout (convert ifile ofile force additional_data TYPE_RK w).1 = stdout w.
Proof.
  intros Hin Hout Hr Hw Hne Hparse Hret.
  assert (Hi : is_file w ifile = true).
  { unfold isfile. rewrite Hin. by apply bool_decide_eq_true_2. }
  destruct (guards_pass _ _ _ _ Hi Hout) as [G1 G2].
  unfold convert_file. rewrite G1, G2, Hr, Hw. cbn [negb].
  rewrite bool_decide_true by done.
  assert (read realpath ifile (open_w realpath ofile w) = data) as ->.
  { unfold read, open_w. cbn [files]. rewrite lookup_insert_ne by done.
    by rewrite Hin. }
  rewrite Hparse. cbn [objects open_w] in *.
  destruct (rkjson tree additional_data (objects w)) as [h [jdata|e]]; [|done].
  cbn in Hret. unfold deref. destruct (h !! jdata) as [jd|]; [|done].
  cbn in Hret. injection Hret as ->. cbn. by rewrite insert_insert_eq.
Qed.

(** X17: in the GeoJSON format, when the guards pass, the input parses
    and the conversion returns a record, [convert_file] returns normally
    and leaves in the output file [json.dumps] of that record; no dict is
    changed, so the overrides passed along are not used. *)
Theorem convert_file_writes_geojson (ifile ofile : string) (force : bool)
    (additional_data : loc) (w : world) (data : string) (tree : element)
    (jd : dict) :
  files w !! realpath ifile = Some data ->
  is_file w ofile = false \/ force = true ->
  may_read ifile = true -> may_write ofile = true ->
  realpath ifile ≠ realpath ofile ->
  fromstring data = Some tree ->
  geojson tree additional_data = Ok jd ->
  (convert ifile ofile force additional_data TYPE_GEOJSON w).2 = None
  /\ files (convert ifile ofile force additional_data TYPE_GEOJSON w).1
     = <[realpath ofile := dumps jd]> (files w)
  /\ objects (convert ifile ofile force additional_data TYPE_GEOJSON w).1
     = objects w.
Proof.
  intros Hin Hout Hr Hw Hne Hparse Hgeo.
  assert (Hi : is_file w ifile = true).
  { unfold isfile. rewrite Hin. by apply bool_decide_eq_true_2. }
  destruct (guards_pass _ _ _ _ Hi Hout) as [G1 G2].
  unfold convert_file. rewrite G1, G2, Hr, Hw. cbn [negb].
  rewrite bool_decide_false by discriminate.
  rewrite bool_decide_true by done.
  assert (read realpath ifile (open_w realpath ofile w) = data) as ->.
  { unfold read, open_w. cbn [files]. rewrite lookup_insert_ne by done.
    by rewrite Hin. }
  rewrite Hparse, Hgeo. cbn. by rewrite insert_insert_eq.
Qed.

(** X18: the output file is opened before the input is converted: when
    the guards pass and both files can be opened, every failure (the
    XML does not parse, or the conversion raises) leaves the output file
    empty, also when it held data before and [force] was set. *)
Theorem convert_file_failure_empties_output (ifile ofile : string) (force : bool)
    (additional_data : loc) (format_type : string) (w : world) (f : failure) :
  is_file w ifile = true ->
  is_file w ofile = false \/ force = true ->
  may_read ifile = true -> may_write ofile = true ->
  (convert ifile ofile force additional_data format_type w).2 = Some f ->
  files (convert ifile ofile force additional_data format_type w).1
  = <[realpath ofile := ""]> (files w)
  /\ (f = XMLSyntaxError \/ exists e, f = Builtin e).
Proof.
  intros Hi Hout Hr Hw.
  destruct (guards_pass _ _ _ _ Hi Hout) as [G1 G2].
  unfold convert_file. rewrite G1, G2, Hr, Hw. cbn [negb].
  repeat case_match; cbn; intros [= <-]; eauto.
Qed.

(** X19: converting a file onto itself destroys it: with [force], when
    input and output name the same file, the file is emptied before it is
    read, the parser is given the empty text, and (the empty text being
    no XML document) the call raises [XMLSyntaxError] and leaves the file
    empty. *)
Theorem convert_file_onto_itself (ifile ofile : string) (additional_data : loc)
    (format_type : string) (w : world) :
  is_file w ifile = true ->
  realpath ofile = realpath ifile ->
  may_read ifile = true -> may_write ofile = true ->
  format_type = TYPE_RK \/ format_type = TYPE_GEOJSON ->
  fromstring "" = None ->
  (convert ifile ofile true additional_data format_type w).2 = Some XMLSyntaxError
  /\ files (convert ifile ofile true additional_data format_type w).1
       !! realpath ifile = Some "".
Proof.
  intros Hi Hsame Hr Hw Hfmt Hempty.
  destruct (guards_pass ifile ofile true w Hi (or_intror eq_refl)) as [G1 G2].
  unfold convert_file. rewrite G1, G2, Hr, Hw. cbn [negb].
  assert (read realpath ifile (open_w realpath ofile w) = "") as ->.
  { unfold read, open_w. cbn [files]. by rewrite Hsame, lookup_insert_eq. }
  rewrite Hempty. destruct Hfmt as [-> | ->].
  - rewrite bool_decide_true by done. cbn. by rewrite Hsame, lookup_insert_eq.
  - rewrite bool_decide_false by discriminate. rewrite bool_decide_true by done.
    cbn. by rewrite Hsame, lookup_insert_eq.
Qed.

(** X20: a format type that is neither ['runkeeper'] nor ['geojson'] is
    not refused: when the guards pass, [convert_file] returns normally
    with an empty output file, without reading the input. *)
Theorem convert_file_unknown_format (ifile ofile : string) (force : bool)
    (additional_data : loc) (format_type : string) (w : world) :
  is_file w ifile = true ->
  is_file w ofile = false \/ force = true ->
  may_read ifile = true -> may_write ofile = true ->
  format_type ≠ TYPE_RK -> format_type ≠ TYPE_GEOJSON ->
  convert ifile ofile force additional_data format_type w
  = (World (<[realpath ofile := ""]> (files w)) (stdout w) (objects w), None).
Proof.
  intros Hi Hout Hr Hw Hrk Hgeo.
  destruct (guards_pass _ _ _ _ Hi Hout) as [G1 G2].
  unfold convert_file. rewrite G1, G2, Hr, Hw. cbn [negb].
  rewrite !bool_decide_false by done. unfold write, open_w. cbn.
  by rewrite insert_insert_eq.
Qed.

End FileProperties.

(** ** The further properties at the sample documents *)

Lemma path_points_of_track_points_witness :
  Forall2 (fun point pp =>
             exists lat lon,
               py_float sample_float_of_string (get point "lat") = Ok lat
               /\ py_float sample_float_of_string (get point "lon") = Ok lon
               /\ pp !! KEY_LAT = Some (VFloat lat)
               /\ pp !! KEY_LON = Some (VFloat lon)
               /\ pp !! KEY_TYPE = Some (VStr "gps")
               /\ match last (iter point (ns "ele")) with
                  | None => pp !! KEY_ALT = None
                  | Some e =>
                      exists alt,
                        py_float sample_float_of_string (text e) = Ok alt
                        /\ pp !! KEY_ALT = Some (VFloat alt)
                  end
               /\ dom pp ⊆ {[ KEY_LAT; KEY_LON; KEY_TYPE; KEY_ALT; KEY_TIMESTAMP ]})
          (track_points sample_gpx) sample_path.
Proof.
  apply (path_points_of_track_points sample_float_of_string sample_parse
           sample_strftime_local sample_gpx 1%positive (caller_heap ∅) ∅ sample_path
           (caller_heap_lookup ∅)).
  reflexivity.
Defined.

Lemma record_without_track_points_witness :
  exists e0 start s,
    head (metadata_times gpx_no_points ++ all_times gpx_no_points) = Some e0
    /\ sample_parse (text e0) = Ok start
    /\ sample_strftime_local start = Ok s
    /\ ({[ KEY_PATH := VList [];
           KEY_STARTTIME := VStr "Wed, 01 May 2013 12:00:00" ]} : dict)
       = {[ KEY_PATH := VList []; KEY_STARTTIME := VStr s ]}.
Proof.
  apply (record_without_track_points sample_float_of_string sample_parse
           sample_strftime_local gpx_no_points 1%positive
           (caller_heap {[ KEY_TYPE := VStr "Cycling" ]})
           {[ KEY_TYPE := VStr "Cycling" ]} _ (caller_heap_lookup _));
    reflexivity.
Defined.

Lemma keys_of_returned_record_witness :
  exists jd,
    returned (sample_rkjson sample_gpx {[ "weather" := VStr "windy" ]}) Some = Some jd
    /\ dom jd
       = {[ KEY_PATH; KEY_STARTTIME ]} ∪ dom ({[ "weather" := VStr "windy" ]} : dict)
         ∪ {[ KEY_TYPE; KEY_EQUIPMENT; KEY_NOTES; KEY_FB; KEY_TWIT ]}.
Proof.
  assert (Hsome : is_Some (returned (sample_rkjson sample_gpx
                                       {[ "weather" := VStr "windy" ]}) Some)).
  { eexists. reflexivity. }
  destruct Hsome as [jd Hjd]. exists jd. split; [exact Hjd|].
  apply (keys_of_returned_record sample_float_of_string sample_parse
           sample_strftime_local sample_gpx 1%positive
           (caller_heap {[ "weather" := VStr "windy" ]}) _ jd
           (caller_heap_lookup _)).
  - discriminate.
  - exact Hjd.
Defined.

Lemma path_independent_of_overrides_witness :
  returned (sample_rkjson sample_gpx ∅) path_of
  = returned (sample_rkjson sample_gpx {[ KEY_PATH := VStr "mine" ]}) path_of
  /\ returned (sample_rkjson sample_gpx ∅) (fun jd => jd !! KEY_STARTTIME)
     = returned (sample_rkjson sample_gpx {[ KEY_PATH := VStr "mine" ]})
                (fun jd => jd !! KEY_STARTTIME).
Proof.
  apply (path_independent_of_overrides sample_float_of_string sample_parse
           sample_strftime_local sample_gpx 1%positive 1%positive
           (caller_heap ∅) (caller_heap {[ KEY_PATH := VStr "mine" ]})
           ∅ {[ KEY_PATH := VStr "mine" ]});
    apply caller_heap_lookup.
Defined.

Lemma rkjson_allocates_only_witness :
  (sample_rkjson sample_gpx ∅).1 !! 1%positive = caller_heap ∅ !! 1%positive
  /\ caller_heap ∅ !! 2%positive = None
  /\ is_Some ((sample_rkjson sample_gpx ∅).1 !! 2%positive).
Proof.
  destruct (rkjson_allocates_only sample_float_of_string sample_parse
              sample_strftime_local sample_gpx 1%positive (caller_heap ∅) ∅
              (caller_heap_lookup ∅)) as [Hframe Hnew].
  split.
  - apply Hframe. by eexists.
  - apply Hnew. reflexivity.
Defined.

Lemma rkjson_independent_of_history_witness :
  returned (convert_gpx_to_rkjson sample_float_of_string sample_parse
              sample_strftime_local sample_gpx 1%positive
              (sample_rkjson gpx_no_points ∅).1) (fun jd => jd !! KEY_TYPE)
  = returned (sample_rkjson sample_gpx ∅) (fun jd => jd !! KEY_TYPE).
Proof.
  apply (rkjson_independent_of_history sample_float_of_string sample_parse
           sample_strftime_local gpx_no_points sample_gpx 1%positive
           (caller_heap ∅) ∅ (caller_heap_lookup ∅)).
Defined.

Lemma first_failing_point_witness :
  (sample_rkjson gpx_bad_point ∅).2 = Raise TypeError.
Proof.
  apply (first_failing_point sample_float_of_string sample_parse
           sample_strftime_local gpx_bad_point 1%positive (caller_heap ∅) ∅
           (gpx_text "time" "2013-05-01T12:00:00Z") (Datetime T0 (Some 0))
           "Wed, 01 May 2013 12:00:00"
           [trkpt "45.0" "-122.0" []] [trkpt "45.002" "-122.002" []]
           (Element (ns "trkpt") {[ "lon" := "-122.001" ]} None [])).
  - apply caller_heap_lookup.
  - reflexivity.
  - reflexivity.
  - by eexists.
  - reflexivity.
  - reflexivity.
  - repeat constructor. eexists. reflexivity.
  - reflexivity.
Defined.

Lemma naive_start_time_witness :
  (convert_gpx_to_rkjson sample_float_of_string naive_parse sample_strftime_local
     sample_gpx 1%positive (caller_heap ∅)).2 = Raise ValueError.
Proof.
  apply (naive_start_time sample_float_of_string naive_parse sample_strftime_local
           sample_gpx 1%positive (caller_heap ∅) ∅
           (gpx_text "time" "2013-05-01T12:00:00Z") (Datetime T0 None)
           (caller_heap_lookup ∅));
    reflexivity.
Defined.

Lemma geojson_returns_iff_witness :
  exists name_el time_el start s (lonlat : list (spec_float * spec_float)),
    head (track_names sample_gpx) = Some name_el
    /\ head (metadata_times sample_gpx) = Some time_el
    /\ sample_parse (text time_el) = Ok start
    /\ is_Some (utcoffset start)
    /\ sample_strftime_local start = Ok s
    /\ Forall2 (fun point ll =>
                  py_float sample_float_of_string (get point "lon") = Ok ll.1
                  /\ py_float sample_float_of_string (get point "lat") = Ok ll.2)
               (track_points sample_gpx) lonlat
    /\ geojson_record (VStr "Morning run") "Wed, 01 May 2013 12:00:00"
         ((fun ll => VList [VFloat ll.1; VFloat ll.2]) <$> sample_lonlat)
       = geojson_record (text_value (text name_el)) s
           ((fun ll => VList [VFloat ll.1; VFloat ll.2]) <$> lonlat).
Proof.
  apply (geojson_returns_iff sample_float_of_string sample_parse
           sample_strftime_local sample_gpx 1%positive).
  reflexivity.
Defined.

Lemma geojson_coordinates_match_path_witness :
  coordinates_of
    (geojson_record (VStr "Morning run") "Wed, 01 May 2013 12:00:00"
       ((fun ll => VList [VFloat ll.1; VFloat ll.2]) <$> sample_lonlat))
  = Some ((fun pp => VList [default VNone (pp !! KEY_LON);
                            default VNone (pp !! KEY_LAT)]) <$> sample_path).
Proof.
  apply (geojson_coordinates_match_path sample_float_of_string sample_parse
           sample_strftime_local sample_gpx 1%positive 1%positive (caller_heap ∅) ∅
           sample_path _ (caller_heap_lookup ∅));
    reflexivity.
Defined.

Lemma geojson_time_matches_start_time_witness :
  properties_of
    (geojson_record (VStr "Morning run") "Wed, 01 May 2013 12:00:00"
       ((fun ll => VList [VFloat ll.1; VFloat ll.2]) <$> sample_lonlat))
    ≫= (fun p => p !! KEY_TIME)
  = Some (VStr "Wed, 01 May 2013 12:00:00").
Proof.
  apply (geojson_time_matches_start_time sample_float_of_string sample_parse
           sample_strftime_local sample_gpx 1%positive 1%positive (caller_heap ∅) ∅
           _ _ (caller_heap_lookup ∅));
    reflexivity.
Defined.

Lemma convert_file_refuses_witness :
  (sample_convert_file "run.gpx" "old.json" false TYPE_RK sample_world).2
  = Some (SystemExit (-1))
  /\ files (sample_convert_file "run.gpx" "old.json" false TYPE_RK sample_world).1
     = files sample_world.
Proof.
  destruct (convert_file_refuses sample_float_of_string sample_parse
              sample_strftime_local sample_fromstring sample_dumps (fun path => path)
              (fun _ => true) (fun _ => true)
              "run.gpx" "old.json" false 1%positive TYPE_RK sample_world)
    as [Hiff Hsame].
  assert (Hexit : (sample_convert_file "run.gpx" "old.json" false TYPE_RK
                     sample_world).2 = Some (SystemExit (-1))).
  { apply Hiff. right. split; reflexivity. }
  split; [exact Hexit|]. apply (Hsame Hexit).
Defined.

Lemma convert_file_touches_output_only_witness :
  files (sample_convert_file "run.gpx" "out.json" false TYPE_RK sample_world).1
    !! "run.gpx"
  = files sample_world !! "run.gpx".
Proof.
  apply (convert_file_touches_output_only sample_float_of_string sample_parse
           sample_strftime_local sample_fromstring sample_dumps (fun path => path)
           (fun _ => true) (fun _ => true)).
  discriminate.
Defined.

Lemma convert_file_writes_record_witness :
  exists r,
    returned (sample_rkjson sample_gpx ∅) Some = Some r
    /\ (sample_convert_file "run.gpx" "out.json" false TYPE_RK sample_world).2 = None
    /\ files (sample_convert_file "run.gpx" "out.json" false TYPE_RK sample_world).1
       = <["out.json" := sample_dumps r]> (files sample_world)
    /\ stdout (sample_convert_file "run.gpx" "out.json" false TYPE_RK sample_world).1
       = [].
Proof.
  assert (Hsome : is_Some (returned (sample_rkjson sample_gpx ∅) Some)).
  { eexists. reflexivity. }
  destruct Hsome as [r Hr]. exists r. split; [exact Hr|].
  apply (convert_file_writes_record sample_float_of_string sample_parse
           sample_strftime_local sample_fromstring sample_dumps (fun path => path)
           (fun _ => true) (fun _ => true)
           "run.gpx" "out.json" false 1%positive sample_world sample_xml sample_gpx r).
  - reflexivity.
  - left. reflexivity.
  - reflexivity.
  - reflexivity.
  - discriminate.
  - reflexivity.
  - exact Hr.
Defined.

Lemma convert_file_writes_geojson_witness :
  (sample_convert_file "run.gpx" "old.json" true TYPE_GEOJSON sample_world).2 = None
  /\ files (sample_convert_file "run.gpx" "old.json" true TYPE_GEOJSON
              sample_world).1
     = <["old.json" :=
           sample_dumps
             (geojson_record (VStr "Morning run") "Wed, 01 May 2013 12:00:00"
                ((fun ll => VList [VFloat ll.1; VFloat ll.2]) <$> sample_lonlat))]>
         (files sample_world)
  /\ objects (sample_convert_file "run.gpx" "old.json" true TYPE_GEOJSON
                sample_world).1
     = objects sample_world.
Proof.
  apply (convert_file_writes_geojson sample_float_of_string sample_parse
           sample_strftime_local sample_fromstring sample_dumps (fun path => path)
           (fun _ => true) (fun _ => true)
           "run.gpx" "old.json" true 1%positive sample_world sample_xml sample_gpx).
  - reflexivity.
  - right. reflexivity.
  - reflexivity.
  - reflexivity.
  - discriminate.
  - reflexivity.
  - reflexivity.
Defined.

Lemma convert_file_failure_empties_output_witness :
  (sample_convert_file "bad.gpx" "old.json" true TYPE_RK sample_world).2
  = Some (Builtin AttributeError)
  /\ files (sample_convert_file "bad.gpx" "old.json" true TYPE_RK sample_world).1
     = <["old.json" := ""]> (files sample_world).
Proof.
  assert (Hfail : (sample_convert_file "bad.gpx" "old.json" true TYPE_RK
                     sample_world).2 = Some (Builtin AttributeError))
    by reflexivity.
  split; [exact Hfail|].
  apply (convert_file_failure_empties_output sample_float_of_string sample_parse
           sample_strftime_local sample_fromstring sample_dumps (fun path => path)
           (fun _ => true) (fun _ => true)
           "bad.gpx" "old.json" true 1%positive TYPE_RK sample_world
           (Builtin AttributeError)).
  - reflexivity.
  - right. reflexivity.
  - reflexivity.
  - reflexivity.
  - exact Hfail.
Defined.

Lemma convert_file_onto_itself_witness :
  (sample_convert_file "run.gpx" "run.gpx" true TYPE_RK sample_world).2
  = Some XMLSyntaxError
  /\ files (sample_convert_file "run.gpx" "run.gpx" true TYPE_RK sample_world).1
       !! "run.gpx" = Some "".
Proof.
  apply (convert_file_onto_itself sample_float_of_string sample_parse
           sample_strftime_local sample_fromstring sample_dumps (fun path => path)
           (fun _ => true) (fun _ => true)
           "run.gpx" "run.gpx" 1%positive TYPE_RK sample_world).
  - reflexivity.
  - reflexivity.
  - reflexivity.
  - reflexivity.
  - left. reflexivity.
  - reflexivity.
Defined.

Lemma convert_file_unknown_format_witness :
  sample_convert_file "run.gpx" "out.txt" false "kml" sample_world
  = (World (<["out.txt" := ""]> (files sample_world)) [] (caller_heap ∅), None).
Proof.
  apply (convert_file_unknown_format sample_float_of_string sample_parse
           sample_strftime_local sample_fromstring sample_dumps (fun path => path)
           (fun _ => true) (fun _ => true)
           "run.gpx" "out.txt" false 1%positive "kml" sample_world).
  - reflexivity.
  - left. reflexivity.
  - reflexivity.
  - reflexivity.
  - discriminate.
  - discriminate.
Defined.
